(** * parsel/selector.py: selectors over lxml trees and JSON values

    A shallow embedding of [parsel.selector] (the [Selector] and
    [SelectorList] classes, [create_root_node], [_load_json_or_none])
    together with the properties stated about them.

    Conventions.
    - Python text ([str] of Python 3, [six.text_type]) is a list of code
      points; [bytes] is a list of octets.
    - The lxml tree is a shared mutable structure: elements live in a store
      ([heap]) and a Python reference to an element is an index into it.
    - A Python call that may raise returns an [outcome]; a method that also
      mutates [self] or the tree is a state transformer ([M]).
    - lxml, cssselect (through [parsel.csstranslator]), jmespath, [json] and
      the builtin [str()] conversion are collaborators of this module; they
      are gathered in the class [Collaborators]. *)

From Stdlib Require Import NArith ZArith Lia List Ascii String.
From Stdlib.Strings Require Import Byte.
From stdpp Require Import base option list gmap strings.

Open Scope N_scope.

(** ** Text and bytes *)

(** A Python 3 [str]: a sequence of code points. *)
Abbreviation str := (list N).

Abbreviation bytes := (list byte).

(** Text literals. *)
Definition u (s : string) : str :=
  (fun a => N_of_ascii a) <$> list_ascii_of_string s.

(** Bytes literals. *)
Definition b (s : string) : bytes := list_byte_of_string s.

(** [str.isspace] on one code point (the set used by [str.strip()]). *)
Definition isspace (c : N) : bool :=
  ((0x09 <=? c) && (c <=? 0x0D)) || ((0x1C <=? c) && (c <=? 0x20))
  || (c =? 0x85) || (c =? 0xA0) || (c =? 0x1680)
  || ((0x2000 <=? c) && (c <=? 0x200A))
  || (c =? 0x2028) || (c =? 0x2029) || (c =? 0x202F) || (c =? 0x205F)
  || (c =? 0x3000).

Fixpoint lstrip (s : str) : str :=
  match s with
  | c :: s' => if isspace c then lstrip s' else s
  | [] => []
  end.

Definition rstrip (s : str) : str := reverse (lstrip (reverse s)).

(** [text.strip()] *)
Definition strip (s : str) : str := rstrip (lstrip s).

(** [text.replace('\x00', '')] *)
Definition replace_nul (s : str) : str := filter (fun c => c ≠ 0) s.

Definition byte_of_N (n : N) : byte := default "000"%byte (Byte.of_N n).

Definition is_surrogate (c : N) : bool := (0xD800 <=? c) && (c <=? 0xDFFF).

(** UTF-8 encoding of one code point; [None] is [UnicodeEncodeError]: the
    codec of Python 3 is strict and refuses the surrogates U+D800..U+DFFF. *)
Definition encode_char (c : N) : option bytes :=
  if c <? 0x80 then Some [byte_of_N c]
  else if c <? 0x800 then
    Some [byte_of_N (0xC0 + c / 64); byte_of_N (0x80 + c mod 64)]
  else if c <? 0x10000 then
    if is_surrogate c then None
    else Some [byte_of_N (0xE0 + c / 4096);
               byte_of_N (0x80 + (c / 64) mod 64);
               byte_of_N (0x80 + c mod 64)]
  else if c <? 0x110000 then
    Some [byte_of_N (0xF0 + c / 262144);
          byte_of_N (0x80 + (c / 4096) mod 64);
          byte_of_N (0x80 + (c / 64) mod 64);
          byte_of_N (0x80 + c mod 64)]
  else None.

(** [s.encode('utf8')] *)
Fixpoint encode_utf8 (s : str) : option bytes :=
  match s with
  | [] => Some []
  | c :: s' =>
      match encode_char c, encode_utf8 s' with
      | Some bc, Some bs => Some (bc ++ bs)
      | _, _ => None
      end
  end.

(** A code point that the UTF-8 codec accepts. *)
Definition encodable_char (c : N) : Prop :=
  c < 0x110000 ∧ is_surrogate c = false.

Definition encodable (s : str) : Prop := Forall encodable_char s.

Global Instance encodable_char_dec c : Decision (encodable_char c).
Proof. unfold encodable_char. apply _. Defined.

(** ** Python values *)

(** The values a selector can hold or a collaborator can return: JSON
    values, XPath scalars, raw bytes, and references to lxml elements. *)
#[local] Unset Elimination Schemes.
Inductive pyval : Type :=
| PNone
| PBool (v : bool)
| PInt (v : Z)
| PFloat (bits : Z)
| PStr (v : str)
| PBytes (v : bytes)
| PList (v : list pyval)
| PDict (v : list (str * pyval))
| PElem (ref : nat).
#[local] Set Elimination Schemes.

(** [isinstance(x, six.text_type)] *)
Definition is_text (x : pyval) : bool :=
  match x with PStr _ => true | _ => false end.

(** [isinstance(x, etree._Element)] *)
Definition is_element (x : pyval) : bool :=
  match x with PElem _ => true | _ => false end.

(** ** Exceptions *)

Inductive exn : Type :=
| ValueError (msg : str)
| TypeError
| AttributeError
| KeyError
| UnicodeEncodeError
| RecursionError
| SelectorError (msg : str)
| JMESPathError (msg : str)
| CannotRemoveElementWithoutRoot
| CannotRemoveElementWithoutParent.

(** [isinstance(e, ValueError)]: [UnicodeEncodeError] is a subclass of
    [ValueError]. *)
Definition is_ValueError (e : exn) : bool :=
  match e with
  | ValueError _ | UnicodeEncodeError => true
  | _ => false
  end.

Inductive outcome (A : Type) : Type :=
| Ok (a : A)
| Raise (e : exn).
Arguments Ok {A} a.
Arguments Raise {A} e.

(** State and exceptions: a raised exception keeps the state reached. *)
Definition M (S A : Type) : Type := S -> outcome A * S.

Definition ret {S A} (a : A) : M S A := fun s => (Ok a, s).

Definition raise {S A} (e : exn) : M S A := fun s => (Raise e, s).

Definition bind {S A B} (m : M S A) (k : A -> M S B) : M S B :=
  fun s => match m s with
           | (Ok a, s') => k a s'
           | (Raise e, s') => (Raise e, s')
           end.

Notation "'let*' x := m 'in' k" := (bind m (fun x => k))
  (at level 10, x pattern, m at level 100, k at level 200).
Notation "m ;; k" := (bind m (fun _ => k))
  (at level 100, k at level 200, right associativity).

Definition lift_outcome {S A} (o : outcome A) : M S A := fun s => (o, s).

(** [[f(x) for x in xs]] where [f] may raise. *)
Fixpoint for_each {S A B} (f : A -> M S B) (xs : list A) : M S (list B) :=
  match xs with
  | [] => ret []
  | x :: xs' =>
      let* y := f x in
      let* ys := for_each f xs' in
      ret (y :: ys)
  end.

(** ** The lxml tree store *)

Record element : Type := Element {
  el_tag : str;
  el_text : option str;
  el_tail : option str;
  el_attrib : list (str * str);
  el_parent : option nat;
  el_children : list nat
}.

Abbreviation heap := (gmap nat element).

(** [el.getparent()] *)
Definition getparent (h : heap) (n : nat) : option nat :=
  h !! n ≫= el_parent.

(** [el.text] *)
Definition element_text (h : heap) (n : nat) : option str :=
  h !! n ≫= el_text.

(** [list(el)] *)
Definition getchildren (h : heap) (n : nat) : list nat :=
  default [] (el_children <$> h !! n).

Definition set_children (cs : list nat) (e : element) : element :=
  Element (el_tag e) (el_text e) (el_tail e) (el_attrib e) (el_parent e) cs.

Definition set_parent (p : option nat) (e : element) : element :=
  Element (el_tag e) (el_text e) (el_tail e) (el_attrib e) p (el_children e).

Definition unlink (p n : nat) (h : heap) : heap :=
  alter (set_parent None) n
    (alter (fun e => set_children (filter (fun c => c ≠ n) (el_children e)) e)
           p h).

(** [parent.remove(el)]: lxml raises [ValueError] when [el] is not a child of
    [parent]; otherwise [el] leaves the child list and loses its parent. *)
Definition element_remove (p n : nat) : M heap unit :=
  fun h =>
    if decide (getparent h n = Some p) then (Ok tt, unlink p n h)
    else (Raise (ValueError (u "Element is not a child of this node.")), h).

(** ** Document kinds and the per-kind table *)

(** The four values [self.type] takes. *)
Inductive kind : Type := Html | Xml | Json | Text.

Global Instance kind_eq_dec : EqDecision kind.
Proof. solve_decision. Defined.

Definition name_of_kind (k : kind) : str :=
  match k with
  | Html => u "html"
  | Xml => u "xml"
  | Json => u "json"
  | Text => u "text"
  end.

Definition kind_of_name (s : str) : option kind :=
  if decide (s = u "html") then Some Html
  else if decide (s = u "json") then Some Json
  else if decide (s = u "text") then Some Text
  else if decide (s = u "xml") then Some Xml
  else None.

Inductive parser_cls : Type := HTMLParser | SafeXMLParser.

Inductive translator : Type := HTMLTranslator | GenericTranslator.

Record ctgroup_entry : Type := {
  _parser : parser_cls;
  _csstranslator : translator;
  _tostring_method : str
}.

(** [_ctgroup[type]]: only the tree kinds have an entry. *)
Definition _ctgroup (k : kind) : outcome ctgroup_entry :=
  match k with
  | Html => Ok {| _parser := HTMLParser;
                  _csstranslator := HTMLTranslator;
                  _tostring_method := u "html" |}
  | Xml => Ok {| _parser := SafeXMLParser;
                 _csstranslator := GenericTranslator;
                 _tostring_method := u "xml" |}
  | Json | Text => Raise KeyError
  end.

(** ** Collaborators *)

(** Namespace registries: prefix to URI. *)
Abbreviation nsmap := (gmap str str).

(** Keyword arguments handed through to a collaborator. *)
Definition kwargs := list (str * pyval).

(** What [element.xpath(...)] does: a value (a list for a node-set, else a
    string, float or boolean), an [etree.XPathError], or another exception. *)
Inductive xpath_outcome : Type :=
| XPathValue (v : pyval)
| XPathError (msg : str)
| XPathRaise (e : exn).

Class Collaborators : Type := {
  (** [etree.fromstring(body, parser=parser_cls(recover=True,
      encoding='utf8'), base_url=base_url)]: a new root, or [None]. *)
  etree_fromstring : parser_cls -> bytes -> option str -> heap -> option nat * heap;
  (** [etree.tostring(el, method=m, encoding='unicode', with_tail=False)]
      on an element. *)
  etree_tostring : heap -> nat -> str -> str;
  (** [el.xpath(query, namespaces=nsp, smart_strings=False, **kwargs)] *)
  element_xpath : heap -> nat -> str -> nsmap -> kwargs -> xpath_outcome;
  (** [translator.css_to_xpath(query)] of [parsel.csstranslator] *)
  css_to_xpath : translator -> str -> outcome str;
  (** [jmespath.search(query, data, **kwargs)] *)
  jmespath_search : str -> pyval -> kwargs -> outcome pyval;
  (** [json.loads(text)] on a character string: the document, or the
      exception raised ([ValueError] for a text that is not JSON,
      [RecursionError] for a text nested deeper than the interpreter
      allows). *)
  json_loads : str -> outcome pyval;
  (** [six.text_type(x)] on a number, on bytes or on a container *)
  text_type : pyval -> str
}.

(** ** Module-level functions *)

Section module_functions.
Context `{Collaborators}.

Definition fromstring (p : parser_cls) (body : bytes) (base_url : option str)
  : M heap pyval :=
  fun h =>
    match etree_fromstring p body base_url h with
    | (Some n, h') => (Ok (PElem n), h')
    | (None, h') => (Ok PNone, h')
    end.

(** [text.strip().replace('\x00', '').encode('utf8') or b'<html/>'] *)
Definition root_body (s : str) : option bytes :=
  match encode_utf8 (replace_nul (strip s)) with
  | Some [] => Some (b "<html/>")
  | r => r
  end.

Definition create_root_node (text : pyval) (parser_cls : parser_cls)
    (base_url : option str) : M heap pyval :=
  match text with
  | PStr s =>
      match root_body s with
      | None => raise UnicodeEncodeError
      | Some body =>
          let* root := fromstring parser_cls body base_url in
          match root with
          | PNone => fromstring parser_cls (b "<html/>") base_url
          | _ => ret root
          end
      end
  | PBytes _ => raise TypeError
  | _ => raise AttributeError
  end.

Definition _load_json_or_none (text : option str) : outcome pyval :=
  match text with
  | Some s =>
      match json_loads s with
      | Ok d => Ok d
      | Raise e => if is_ValueError e then Ok PNone else Raise e
      end
  | None => Raise TypeError
  end.

End module_functions.

(** ** [parsel.utils] *)

(** Modelled from the spec: [parsel.utils] is not among the sources.  The
    spec describes [extract_regex] as the application of a regular
    expression to a text, which returns the matches (or the captured groups)
    in the order found, as a flat list of strings, with character entities
    optionally replaced; it may raise (a pattern that does not compile, a
    value that is not a text).  The regular expression is given by its
    source. *)
Class Utils : Type := {
  extract_regex : str -> pyval -> bool -> outcome (list str)
}.

(** Modelled from the spec: [flatten] of [parsel.utils] collapses one level
    of nested result sequences into a single ordered sequence. *)
Definition flatten {A} (xs : list (list A)) : list A := concat xs.

(** ** Truth values *)

(** [bool(x)]: [None], [False], zero, and the empty string, bytes, list and
    dict are false; an lxml element is true when it has children. *)
Definition truth (h : heap) (x : pyval) : bool :=
  match x with
  | PNone => false
  | PBool v => v
  | PInt v => negb (v =? 0)%Z
  | PFloat bits => negb ((bits =? 0)%Z || (bits =? 2 ^ 63)%Z)
  | PStr v => negb (bool_decide (v = []))
  | PBytes v => negb (bool_decide (v = []))
  | PList v => match v with [] => false | _ => true end
  | PDict v => match v with [] => false | _ => true end
  | PElem n => negb (bool_decide (getchildren h n = []))
  end.

(** ** class Selector *)

Module Selector.

Record t : Type := {
  namespaces : nsmap;
  type : kind;
  _expr : option str;
  root : pyval;
  _text : option str
}.

(** [selectorlist_cls]: a SelectorList is a Python list of selectors. *)
Definition selectorlist := list t.

Definition _default_namespaces : nsmap :=
  <[u "re" := u "http://exslt.org/regular-expressions"]>
    (<[u "set" := u "http://exslt.org/sets"]> ∅).

(** A method runs on its receiver and on the tree store. *)
Definition St : Type := t * heap.

Definition self : M St t := fun st => (Ok st.1, st).

Definition read_heap : M St heap := fun st => (Ok st.2, st).

Definition on_heap {A} (m : M heap A) : M St A :=
  fun st => match m st.2 with (o, h') => (o, (st.1, h')) end.

Definition set_type (k : kind) : M St unit :=
  fun st =>
    (Ok tt, ({| namespaces := namespaces st.1; type := k; _expr := _expr st.1;
                root := root st.1; _text := _text st.1 |}, st.2)).

Definition set_root (r : pyval) : M St unit :=
  fun st =>
    (Ok tt, ({| namespaces := namespaces st.1; type := type st.1;
                _expr := _expr st.1; root := r; _text := _text st.1 |}, st.2)).

Definition set_namespaces (ns : nsmap) : M St unit :=
  fun st =>
    (Ok tt, ({| namespaces := ns; type := type st.1; _expr := _expr st.1;
                root := root st.1; _text := _text st.1 |}, st.2)).

(** [if type(result) is not list: result = [result]] *)
Definition listify (v : pyval) : list pyval :=
  match v with
  | PList l => l
  | _ => [v]
  end.

(** [if result is None: result = []], else as [listify] *)
Definition listify_non_null (v : pyval) : list pyval :=
  match v with
  | PNone => []
  | _ => listify v
  end.

(** [dict(a)] followed by [.update(b)] when [b] is given. *)
Definition updated (a : nsmap) (b : option nsmap) : nsmap :=
  match b with
  | Some m => m ∪ a
  | None => a
  end.

Section methods.
Context `{Collaborators}.

(** [type not in ('html', 'json', 'text', 'xml', None)] raises. *)
Definition check_type (type : option str) : outcome (option kind) :=
  match type with
  | None => Ok None
  | Some s =>
      match kind_of_name s with
      | Some k => Ok (Some k)
      | None => Raise (ValueError (u "Invalid type: " ++ s))
      end
  end.

(** [_get_root], with [self.type] already set to [k] *)
Definition _get_root (k : kind) (text : pyval) (base_url : option str)
  : M heap pyval :=
  let* e := lift_outcome (_ctgroup k) in
  create_root_node text (_parser e) base_url.

(** [__init__]; [text = PNone] is the default [None], [root = None] is the
    default [_NOTSET], and so on for the other arguments. *)
Definition __init__ (text : pyval) (type : option str)
    (namespaces : option nsmap) (root : option pyval)
    (base_url : option str) (_expr : option str) : M heap t :=
  let* ty := lift_outcome (check_type type) in
  let ns := updated _default_namespaces namespaces in
  match text, root with
  | PNone, None =>
      raise (ValueError (u "Selector needs either text or root argument"))
  | PNone, Some r =>
      let k := match ty with
               | Some k => k
               | None => if is_element r then Html else Json
               end in
      ret {| namespaces := ns; type := k; _expr := _expr; root := r;
             _text := None |}
  | PStr s, _ =>
      match ty with
      | None | Some Html | Some Xml =>
          let k := default Html ty in
          let* r := _get_root k text base_url in
          ret {| namespaces := ns; type := k; _expr := _expr; root := r;
                 _text := Some s |}
      | Some Json =>
          let* r := lift_outcome (_load_json_or_none (Some s)) in
          ret {| namespaces := ns; type := Json; _expr := _expr; root := r;
                 _text := Some s |}
      | Some Text =>
          ret {| namespaces := ns; type := Text; _expr := _expr; root := text;
                 _text := Some s |}
      end
  | _, _ => raise TypeError
  end.

Definition _load_lxml_root (text : pyval) (type : kind)
    (base_url : option str) : M St unit :=
  set_type type;;
  let* r := on_heap (_get_root type text base_url) in
  set_root r.

(** The document a JMESPath query runs on. *)
Definition jmespath_data : M St pyval :=
  let* s := self in
  if decide (type s = Json) then ret (root s)
  else
    match root s with
    | PStr v => lift_outcome (_load_json_or_none (Some v))
    | PElem n =>
        let* h := read_heap in
        match element_text h n with
        | None => lift_outcome (_load_json_or_none (_text s))
        | Some v => lift_outcome (_load_json_or_none (Some v))
        end
    | _ => raise AttributeError
    end.

(** [type or 'text'] *)
Definition type_or (type : option str) (dflt : str) : str :=
  match type with
  | Some (c :: s) => c :: s
  | _ => dflt
  end.

(** The closure [make_selector] of [jmespath]. *)
Definition make_selector (query : str) (type : option str) (x : pyval)
  : M heap t :=
  if is_text x then
    __init__ x (Some (type_or type (u "text"))) None None None (Some query)
  else
    __init__ PNone type None (Some x) None (Some query).

Definition jmespath (query : str) (type : option str) (kw : kwargs)
  : M St selectorlist :=
  let* data := jmespath_data in
  let* result := lift_outcome (jmespath_search query data kw) in
  let result := listify_non_null result in
  on_heap (for_each (make_selector query type) result).

(** The kind gate shared by [xpath] and [css]. *)
Definition tree_kind (method : string) : M St unit :=
  let* s := self in
  match type s with
  | Text => _load_lxml_root (root s) Html None
  | Html | Xml => ret tt
  | Json =>
      raise (ValueError (u "Cannot use " ++ u method
                           ++ u " on a Selector of type 'json'"))
  end.

Definition xpath (query : str) (namespaces : option nsmap) (kw : kwargs)
  : M St selectorlist :=
  tree_kind "xpath";;
  let* s := self in
  match root s with
  | PElem n =>
      let nsp := updated (Selector.namespaces s) namespaces in
      let* h := read_heap in
      match element_xpath h n query nsp kw with
      | XPathError msg =>
          raise (ValueError (u "XPath error: " ++ msg ++ u " in " ++ query))
      | XPathRaise e => raise e
      | XPathValue v =>
          let result := listify v in
          on_heap
            (for_each
               (fun x => __init__ PNone (Some (name_of_kind (type s)))
                           (Some (Selector.namespaces s)) (Some x) None
                           (Some query))
               result)
      end
  | _ => ret []
  end.

Definition _css2xpath (query : str) : M St str :=
  let* s := self in
  let* e := lift_outcome (_ctgroup (type s)) in
  lift_outcome (css_to_xpath (_csstranslator e) query).

Definition css (query : str) : M St selectorlist :=
  tree_kind "css";;
  let* x := _css2xpath query in
  xpath x None [].

Definition get : M St pyval :=
  let* s := self in
  match type s with
  | Text | Json => ret (root s)
  | Html | Xml =>
      let* e := lift_outcome (_ctgroup (type s)) in
      match root s with
      | PElem n =>
          let* h := read_heap in
          ret (PStr (etree_tostring h n (_tostring_method e)))
      | PBool true => ret (PStr (u "1"))
      | PBool false => ret (PStr (u "0"))
      | PStr v => ret (PStr v)
      | PNone => ret (PStr (u "None"))
      | v => ret (PStr (text_type v))
      end
  end.

Definition getall : M St (list pyval) :=
  let* v := get in
  ret [v].

Definition register_namespace (prefix uri : str) : M St unit :=
  let* s := self in
  set_namespaces (<[prefix := uri]> (namespaces s)).

Definition remove : M St unit :=
  let* s := self in
  match root s with
  | PElem n =>
      let* h := read_heap in
      match getparent h n with
      | Some p => on_heap (element_remove p n)
      | None => raise CannotRemoveElementWithoutParent
      end
  | _ => raise CannotRemoveElementWithoutRoot
  end.

End methods.

Section more_methods.
Context `{Collaborators} `{Utils}.

Definition re (regex : str) (replace_entities : bool) : M St (list str) :=
  let* v := get in
  lift_outcome (extract_regex regex v replace_entities).

(** [next(iflatten(self.re(...)), default)] *)
Definition re_first (regex : str) (default : pyval) (replace_entities : bool)
  : M St pyval :=
  let* matches := re regex replace_entities in
  match matches with
  | m :: _ => ret (PStr m)
  | [] => ret default
  end.

(** [dict(self.root.attrib)] *)
Definition attrib : M St (list (str * str)) :=
  let* s := self in
  match root s with
  | PElem n =>
      let* h := read_heap in
      ret (default [] (el_attrib <$> h !! n))
  | _ => raise AttributeError
  end.

Definition __bool__ : M St bool :=
  let* v := get in
  let* h := read_heap in
  ret (truth h v).

End more_methods.

End Selector.

(** ** class SelectorList *)

Module SelectorList.

Section methods.
Context `{Collaborators}.

(** A method call [x.m()] on an element of the list. *)
Definition call {A} (x : Selector.t) (m : M Selector.St A) : M heap A :=
  fun h => match m (x, h) with (o, st) => (o, st.2) end.

Definition getall (l : Selector.selectorlist) : M heap (list pyval) :=
  for_each (fun x => call x Selector.get) l.

Definition get (l : Selector.selectorlist) (default : pyval) : M heap pyval :=
  match l with
  | x :: _ => call x Selector.get
  | [] => ret default
  end.

Definition remove (l : Selector.selectorlist) : M heap unit :=
  for_each (fun x => call x Selector.remove) l;;
  ret tt.

End methods.

Section more_methods.
Context `{Collaborators} `{Utils}.

(** The list a method is called on, and the tree store: [xpath] and [css]
    may promote elements of the list in place. *)
Definition St : Type := Selector.selectorlist * heap.

(** [[x.m() for x in self]] for a method [m] that may change [x]; the
    elements of the list are distinct objects. *)
Fixpoint each_in_place {A} (m : M Selector.St A) (l : Selector.selectorlist)
    (h : heap) : outcome (list A) * St :=
  match l with
  | [] => (Ok [], ([], h))
  | x :: l' =>
      match m (x, h) with
      | (Ok a, (x', h1)) =>
          match each_in_place m l' h1 with
          | (Ok r, (l1, h2)) => (Ok (a :: r), (x' :: l1, h2))
          | (Raise e, (l1, h2)) => (Raise e, (x' :: l1, h2))
          end
      | (Raise e, (x', h1)) => (Raise e, (x' :: l', h1))
      end
  end.

Definition jmespath (query : str) (type : option str) (kw : kwargs)
    (l : Selector.selectorlist) : M heap Selector.selectorlist :=
  let* rs := for_each (fun x => call x (Selector.jmespath query type kw)) l in
  ret (flatten rs).

Definition xpath (xpath : str) (namespaces : option nsmap) (kw : kwargs)
  : M St Selector.selectorlist :=
  fun st =>
    match each_in_place (Selector.xpath xpath namespaces kw) st.1 st.2 with
    | (Ok rs, st') => (Ok (flatten rs), st')
    | (Raise e, st') => (Raise e, st')
    end.

Definition css (query : str) : M St Selector.selectorlist :=
  fun st =>
    match each_in_place (Selector.css query) st.1 st.2 with
    | (Ok rs, st') => (Ok (flatten rs), st')
    | (Raise e, st') => (Raise e, st')
    end.

Definition re (regex : str) (replace_entities : bool)
    (l : Selector.selectorlist) : M heap (list str) :=
  let* rs := for_each (fun x => call x (Selector.re regex replace_entities))
               l in
  ret (flatten rs).

(** The generator [x.re(...) for x in self] is consumed up to the first
    match. *)
Fixpoint re_first (regex : str) (default : pyval) (replace_entities : bool)
    (l : Selector.selectorlist) : M heap pyval :=
  match l with
  | [] => ret default
  | x :: l' =>
      let* matches := call x (Selector.re regex replace_entities) in
      match matches with
      | m :: _ => ret (PStr m)
      | [] => re_first regex default replace_entities l'
      end
  end.

Definition attrib (l : Selector.selectorlist) : M heap (list (str * str)) :=
  match l with
  | x :: _ => call x Selector.attrib
  | [] => ret []
  end.

End more_methods.

End SelectorList.

(** ** An executable instance of the collaborators

    The properties of this file hold for every instance of [Collaborators].
    To run the embedding on concrete inputs, this module gives one instance.
    Each function implements a fragment of the library it stands for and
    reports a failure outside of it:
    - [json_loads]: objects, arrays, strings without escapes, integers,
      [true], [false], [null]; containers nested deeper than
      [recursion_limit] raise [RecursionError];
    - [jmespath_search]: the current node [@], raw string literals ['...'],
      and dotted paths of unquoted identifiers;
    - [css_to_xpath]: a single lower-case element name; the empty selector is
      a syntax error;
    - [etree_fromstring]: a document made of one empty element ([<html/>]
      for the HTML parser); [etree_tostring]: elements without children;
      [element_xpath]: the paths [.], [..] and [*];
    - [text_type]: integers. *)

Module Reference.

Definition json_ws (c : N) : bool :=
  (c =? 0x20) || (c =? 0x09) || (c =? 0x0A) || (c =? 0x0D).

Fixpoint skip_ws (s : str) : str :=
  match s with
  | c :: s' => if json_ws c then skip_ws s' else s
  | [] => []
  end.

Definition is_digit (c : N) : bool := (0x30 <=? c) && (c <=? 0x39).

Definition is_lower (c : N) : bool := (0x61 <=? c) && (c <=? 0x7A).

Definition is_upper (c : N) : bool := (0x41 <=? c) && (c <=? 0x5A).

(** The characters of a JSON string up to its closing quote. *)
Fixpoint json_string (s acc : str) : option (str * str) :=
  match s with
  | [] => None
  | c :: s' =>
      if c =? 0x22 then Some (reverse acc, s')
      else if (c =? 0x5C) || (c <? 0x20) then None
      else json_string s' (c :: acc)
  end.

Fixpoint json_digits (s : str) (acc : N) : N * str :=
  match s with
  | c :: s' =>
      if is_digit c then json_digits s' (10 * acc + (c - 0x30)) else (acc, s)
  | [] => (acc, [])
  end.

(** An integer without sign; a fraction or an exponent is not covered. *)
Definition json_int (s : str) : option (N * str) :=
  match s with
  | c :: s' =>
      if is_digit c then
        let '(n, r) := if c =? 0x30 then (0, s') else json_digits s 0 in
        match r with
        | d :: _ =>
            if (d =? 0x2E) || (d =? 0x65) || (d =? 0x45) then None
            else Some (n, r)
        | [] => Some (n, r)
        end
      else None
  | [] => None
  end.

Fixpoint strip_prefix (p s : str) : option str :=
  match p, s with
  | [], _ => Some s
  | c :: p', d :: s' => if c =? d then strip_prefix p' s' else None
  | _ :: _, [] => None
  end.

(** [d[k] = v] on a dict kept in insertion order. *)
Fixpoint dict_set (k : str) (v : pyval) (d : list (str * pyval))
  : list (str * pyval) :=
  match d with
  | [] => [(k, v)]
  | (k', v') :: d' =>
      if decide (k = k') then (k, v) :: d' else (k', v') :: dict_set k v d'
  end.

(** [d.get(k)] *)
Fixpoint dict_get (k : str) (d : list (str * pyval)) : option pyval :=
  match d with
  | [] => None
  | (k', v) :: d' => if decide (k = k') then Some v else dict_get k d'
  end.

(** [json.JSONDecodeError], a [ValueError]. *)
Definition decode_error {A} : outcome A :=
  Raise (ValueError (u "Expecting value")).

Definition or_decode_error {A} (o : option A) : outcome A :=
  match o with
  | Some a => Ok a
  | None => decode_error
  end.

(** The depth of nested containers past which the decoder raises
    [RecursionError] ([sys.getrecursionlimit()], 1000 unless changed). *)
Definition recursion_limit : nat := 1000.

Fixpoint json_value (fuel depth : nat) (s : str) : outcome (pyval * str) :=
  match fuel with
  | O => decode_error
  | S fuel =>
      match skip_ws s with
      | [] => decode_error
      | c :: r =>
          if c =? 0x7B then
            match depth with
            | O => Raise RecursionError
            | S depth =>
                match skip_ws r with
                | 0x7D :: r' => Ok (PDict [], r')
                | r' => json_members fuel depth r' []
                end
            end
          else if c =? 0x5B then
            match depth with
            | O => Raise RecursionError
            | S depth =>
                match skip_ws r with
                | 0x5D :: r' => Ok (PList [], r')
                | r' => json_elements fuel depth r' []
                end
            end
          else if c =? 0x22 then
            or_decode_error ('(v, r') ← json_string r []; Some (PStr v, r'))
          else if c =? 0x2D then
            or_decode_error
              ('(n, r') ← json_int r; Some (PInt (- Z.of_N n), r'))
          else if is_digit c then
            or_decode_error
              ('(n, r') ← json_int (c :: r); Some (PInt (Z.of_N n), r'))
          else
            match strip_prefix (u "true") (c :: r),
                  strip_prefix (u "false") (c :: r),
                  strip_prefix (u "null") (c :: r) with
            | Some r', _, _ => Ok (PBool true, r')
            | _, Some r', _ => Ok (PBool false, r')
            | _, _, Some r' => Ok (PNone, r')
            | _, _, _ => decode_error
            end
      end
  end
with json_members (fuel depth : nat) (s : str) (acc : list (str * pyval))
  : outcome (pyval * str) :=
  match fuel with
  | O => decode_error
  | S fuel =>
      match skip_ws s with
      | 0x22 :: r =>
          match json_string r [] with
          | Some (k, r1) =>
              match skip_ws r1 with
              | 0x3A :: r2 =>
                  match json_value fuel depth r2 with
                  | Ok (v, r3) =>
                      match skip_ws r3 with
                      | 0x2C :: r4 =>
                          json_members fuel depth r4 (dict_set k v acc)
                      | 0x7D :: r4 => Ok (PDict (dict_set k v acc), r4)
                      | _ => decode_error
                      end
                  | Raise e => Raise e
                  end
              | _ => decode_error
              end
          | None => decode_error
          end
      | _ => decode_error
      end
  end
with json_elements (fuel depth : nat) (s : str) (acc : list pyval)
  : outcome (pyval * str) :=
  match fuel with
  | O => decode_error
  | S fuel =>
      match json_value fuel depth s with
      | Ok (v, r) =>
          match skip_ws r with
          | 0x2C :: r' => json_elements fuel depth r' (acc ++ [v])
          | 0x5D :: r' => Ok (PList (acc ++ [v]), r')
          | _ => decode_error
          end
      | Raise e => Raise e
      end
  end.

Definition json_loads (s : str) : outcome pyval :=
  match json_value (2 * length s + 2) recursion_limit s with
  | Ok (v, r) =>
      match skip_ws r with
      | [] => Ok v
      | _ => decode_error
      end
  | Raise e => Raise e
  end.

(** JMESPath: the field [name] of a value. *)
Definition field (name : str) (v : pyval) : pyval :=
  match v with
  | PDict d => default PNone (dict_get name d)
  | _ => PNone
  end.

(** JMESPath: the sub-expression [n1.n2. ... .nk]. *)
Definition subexpression (names : list str) (v : pyval) : pyval :=
  foldl (fun acc name => field name acc) v names.

Fixpoint split_dot (s cur : str) : list str :=
  match s with
  | [] => [reverse cur]
  | c :: s' =>
      if c =? 0x2E then reverse cur :: split_dot s' []
      else split_dot s' (c :: cur)
  end.

Definition is_identifier (s : str) : bool :=
  match s with
  | c :: r =>
      (is_lower c || is_upper c || (c =? 0x5F))
      && forallb (fun d => is_lower d || is_upper d || is_digit d
                           || (d =? 0x5F)) r
  | [] => false
  end.

(** The body of a raw string literal ['...'] without quote or backslash. *)
Definition raw_string (s : str) : option str :=
  match s with
  | 0x27 :: r =>
      match reverse r with
      | 0x27 :: body =>
          if forallb (fun d => negb ((d =? 0x27) || (d =? 0x5C))) body
          then Some (reverse body) else None
      | _ => None
      end
  | _ => None
  end.

Definition jmespath_search (query : str) (data : pyval) (kw : kwargs)
  : outcome pyval :=
  if decide (query = u "@") then Ok data
  else match raw_string query with
       | Some v => Ok (PStr v)
       | None =>
           let names := split_dot query [] in
           if forallb is_identifier names then Ok (subexpression names data)
           else Raise (JMESPathError query)
       end.

(** Modelled from the spec: [parsel.csstranslator] ([HTMLTranslator],
    [GenericTranslator]) is not among the sources; the spec describes
    [css_to_xpath] as a pure, deterministic function from a CSS string to an
    XPath string that signals a translation error for unsupported selector
    syntax.  This instance translates a lower-case element name, as cssselect
    does, and signals an error for anything else, the empty selector
    included. *)
Definition css_to_xpath (tr : translator) (query : str) : outcome str :=
  match query with
  | [] => Raise (SelectorError (u "Expected selector, got <EOF at 0>"))
  | c :: r =>
      if is_lower c && forallb (fun d => is_lower d || is_digit d) r
      then Ok (u "descendant-or-self::" ++ query)
      else Raise (SelectorError query)
  end.

(** The name in a document of the form [<name/>]. *)
Definition empty_element (body : bytes) : option str :=
  match Byte.to_N <$> body with
  | 0x3C :: r =>
      match reverse r with
      | 0x3E :: 0x2F :: name =>
          if forallb is_lower name && negb (bool_decide (name = []))
          then Some (reverse name) else None
      | _ => None
      end
  | _ => None
  end.

Definition etree_fromstring (p : parser_cls) (body : bytes)
    (base_url : option str) (h : heap) : option nat * heap :=
  match empty_element body with
  | Some name =>
      let accepted := match p with
                      | HTMLParser => bool_decide (name = u "html")
                      | SafeXMLParser => true
                      end in
      if accepted then
        let n := fresh (dom h) in
        (Some n, <[n := Element name None None [] None []]> h)
      else (None, h)
  | None => (None, h)
  end.

Definition etree_tostring (h : heap) (n : nat) (method : str) : str :=
  match h !! n with
  | Some e =>
      match el_text e with
      | None =>
          if decide (method = u "html")
          then u "<" ++ el_tag e ++ u "></" ++ el_tag e ++ u ">"
          else u "<" ++ el_tag e ++ u "/>"
      | Some v => u "<" ++ el_tag e ++ u ">" ++ v ++ u "</" ++ el_tag e ++ u ">"
      end
  | None => []
  end.

Definition element_xpath (h : heap) (n : nat) (query : str) (nsp : nsmap)
    (kw : kwargs) : xpath_outcome :=
  if decide (query = u ".") then XPathValue (PList [PElem n])
  else if decide (query = u "..") then
    XPathValue (PList (match getparent h n with
                       | Some p => [PElem p]
                       | None => []
                       end))
  else if decide (query = u "*") then
    XPathValue (PList (PElem <$> getchildren h n))
  else XPathError (u "Invalid expression").

Fixpoint decimal (fuel : nat) (n : N) (acc : str) : str :=
  match fuel with
  | O => acc
  | S fuel =>
      let acc := (0x30 + n mod 10) :: acc in
      if n <? 10 then acc else decimal fuel (n / 10) acc
  end.

Definition text_type (v : pyval) : str :=
  match v with
  | PInt z =>
      let n := Z.to_N (Z.abs z) in
      let digits := decimal (S (N.to_nat (N.log2 n))) n [] in
      if (z <? 0)%Z then 0x2D :: digits else digits
  | PStr s => s
  | _ => []
  end.

Definition collaborators : Collaborators :=
  Build_Collaborators etree_fromstring etree_tostring element_xpath
    css_to_xpath jmespath_search json_loads text_type.

(** Sample inputs: the tree of [<html/>], the selector on its root, a
    selector of kind html that holds a string (as [xpath('//p/text()')]
    returns), and a selector of kind json over [{"a": "x"}]. *)
Definition html_heap : heap :=
  <[0%nat := Element (u "html") None None [] None []]> ∅.

Definition html_selector : Selector.t :=
  {| Selector.namespaces := Selector._default_namespaces;
     Selector.type := Html;
     Selector._expr := None;
     Selector.root := PElem 0;
     Selector._text := Some [] |}.

Definition string_selector : Selector.t :=
  {| Selector.namespaces := Selector._default_namespaces;
     Selector.type := Html;
     Selector._expr := Some (u "//p/text()");
     Selector.root := PStr (u "abc");
     Selector._text := None |}.

(** The tree of [<html><body/></html>] and the selector on [body]. *)
Definition family_heap : heap :=
  <[1%nat := Element (u "body") None None [] (Some 0%nat) []]>
    (<[0%nat := Element (u "html") None None [] None [1%nat]]> ∅).

Definition body_selector : Selector.t :=
  {| Selector.namespaces := Selector._default_namespaces;
     Selector.type := Html;
     Selector._expr := Some (u "//body");
     Selector.root := PElem 1;
     Selector._text := None |}.

Definition json_selector : Selector.t :=
  {| Selector.namespaces := Selector._default_namespaces;
     Selector.type := Json;
     Selector._expr := None;
     Selector.root := PDict [(u "a", PStr (u "x"))];
     Selector._text := None |}.

(** Is [p] a prefix of [s]? *)
Fixpoint is_prefix (p s : str) : bool :=
  match p, s with
  | [], _ => true
  | c :: p', d :: s' => (c =? d) && is_prefix p' s'
  | _ :: _, [] => false
  end.

(** The non-overlapping occurrences of [pat] in [text], left to right. *)
Fixpoint occurrences (pat text : str) (skip : nat) : list str :=
  match text with
  | [] => []
  | _ :: text' =>
      match skip with
      | S k => occurrences pat text' k
      | O =>
          if is_prefix pat text
          then pat :: occurrences pat text' (length pat - 1)
          else occurrences pat text' 0
      end
  end.

(** [extract_regex] for a pattern made of letters and digits, which matches
    itself; the text must be a character string. *)
Definition extract_regex (regex : str) (text : pyval)
    (replace_entities : bool) : outcome (list str) :=
  match regex with
  | _ :: _ =>
      if forallb (fun d => is_lower d || is_upper d || is_digit d) regex then
        match text with
        | PStr v => Ok (occurrences regex v 0)
        | _ => Raise TypeError
        end
      else Raise (ValueError regex)
  | [] => Raise (ValueError regex)
  end.

Definition utils : Utils := Build_Utils extract_regex.

(** An evaluator that also knows the XPath functions [true()] and
    [false()]. *)
Definition element_xpath_bool (h : heap) (n : nat) (query : str)
    (nsp : nsmap) (kw : kwargs) : xpath_outcome :=
  if decide (query = u "true()") then XPathValue (PBool true)
  else if decide (query = u "false()") then XPathValue (PBool false)
  else element_xpath h n query nsp kw.

Definition collaborators_bool : Collaborators :=
  Build_Collaborators etree_fromstring etree_tostring element_xpath_bool
    css_to_xpath jmespath_search json_loads text_type.

(** The tree of [<a x="1"/>] and the selector on its root. *)
Definition attr_heap : heap :=
  <[0%nat := Element (u "a") None None [(u "x", u "1")] None []]> ∅.

Definition attr_selector : Selector.t :=
  {| Selector.namespaces := Selector._default_namespaces;
     Selector.type := Xml;
     Selector._expr := None;
     Selector.root := PElem 0;
     Selector._text := None |}.

(** A selector of kind text with the prefix [x] registered, and one whose
    text is a lone surrogate. *)
Definition prefixed_selector : Selector.t :=
  {| Selector.namespaces :=
       Selector.updated Selector._default_namespaces
         (Some {[ u "x" := u "urn:x" ]});
     Selector.type := Text;
     Selector._expr := None;
     Selector.root := PStr (u "t");
     Selector._text := Some (u "t") |}.

Definition surrogate_selector : Selector.t :=
  {| Selector.namespaces := Selector._default_namespaces;
     Selector.type := Text;
     Selector._expr := None;
     Selector.root := PStr [0xD800];
     Selector._text := Some [0xD800] |}.

(** The text of 100000 opening brackets. *)
Definition nested_text : str := replicate (N.to_nat 100000) 0x5B.

(** A selector of kind text. *)
Definition text_selector : Selector.t :=
  {| Selector.namespaces := Selector._default_namespaces;
     Selector.type := Text;
     Selector._expr := None;
     Selector.root := PStr (u "ab ab");
     Selector._text := Some (u "ab ab") |}.

End Reference.

(** ** Vocabulary of the properties *)

(** A registry that has the built-in prefixes [re] and [set]. *)
Definition seeded (ns : nsmap) : Prop :=
  dom Selector._default_namespaces ⊆ dom ns.

(** The selector [xpath] builds for the result item [x] of [query] run on
    the selector [s]. *)
Definition xpath_result (s : Selector.t) (query : str) (x : pyval)
  : Selector.t :=
  {| Selector.namespaces := Selector.namespaces s;
     Selector.type := Selector.type s;
     Selector._expr := Some query;
     Selector.root := x;
     Selector._text := None |}.


(** The documents [{"a": {"b": 5}}] and [{"a": {}}]. *)
Definition doc_a_b_5 : pyval := PDict [(u "a", PDict [(u "b", PInt 5)])].

Definition doc_a_empty : pyval := PDict [(u "a", PDict [])].

(** A text literal in which every apostrophe stands for a double quote. *)
Definition dq (s : string) : str :=
  (fun c => if c =? 0x27 then 0x22 else c) <$> u s.

(** The selector [s] with another kind, another root, another document. *)
Definition with_kind (k : kind) (s : Selector.t) : Selector.t :=
  {| Selector.namespaces := Selector.namespaces s;
     Selector.type := k;
     Selector._expr := Selector._expr s;
     Selector.root := Selector.root s;
     Selector._text := Selector._text s |}.

Definition with_root (r : pyval) (s : Selector.t) : Selector.t :=
  {| Selector.namespaces := Selector.namespaces s;
     Selector.type := Selector.type s;
     Selector._expr := Selector._expr s;
     Selector.root := r;
     Selector._text := Selector._text s |}.

Definition with_namespaces (ns : nsmap) (s : Selector.t) : Selector.t :=
  {| Selector.namespaces := ns;
     Selector.type := Selector.type s;
     Selector._expr := Selector._expr s;
     Selector.root := Selector.root s;
     Selector._text := Selector._text s |}.

(** The selector [xpath] builds for a result item, for any registry of
    [s]: [__init__] lays the registry of [s] over the built-in prefixes. *)
Definition xpath_item (s : Selector.t) (query : str) (x : pyval)
  : Selector.t :=
  {| Selector.namespaces :=
       Selector.updated Selector._default_namespaces
         (Some (Selector.namespaces s));
     Selector.type := Selector.type s;
     Selector._expr := Some query;
     Selector.root := x;
     Selector._text := None |}.

(** The outcome of [xpath] for an outcome of the evaluator. *)
Definition xpath_outcome_of (s : Selector.t) (query : str)
    (r : xpath_outcome) : outcome Selector.selectorlist :=
  match r with
  | XPathValue v => Ok (xpath_item s query <$> Selector.listify v)
  | XPathError msg =>
      Raise (ValueError (u "XPath error: " ++ msg ++ u " in " ++ query))
  | XPathRaise e => Raise e
  end.

(** The elements held by the selectors of a list, in order. *)
Definition holds (x : Selector.t) (n : nat) : Prop := Selector.root x = PElem n.

(** [o] is the outcome of calling [run] on the elements of [l] in order
    and flattening: the concatenation of the results when every call
    returns, the error of the first call that raises otherwise. *)
Definition broadcast_of {A} (run : Selector.t -> outcome (list A))
    (l : Selector.selectorlist) (o : outcome (list A)) : Prop :=
  (∀ rs, Forall2 (fun x r => run x = Ok r) l rs → o = Ok (concat rs))
  ∧ (∀ l1 x l2 e,
       l = l1 ++ x :: l2 →
       Forall (fun y => ∃ r, run y = Ok r) l1 →
       run x = Raise e →
       o = Raise e).

(** * Properties *)

(** ** Text: [strip], [replace], [encode] *)

Lemma lstrip_split (s : str) :
  ∃ l, s = l ++ lstrip s ∧ Forall (fun c => isspace c = true) l.
Proof.
  induction s as [|c s [l [Hs Hl]]]; simpl.
  - exists []. split; [reflexivity | constructor].
  - destruct (isspace c) eqn:Hc.
    + exists (c :: l). split; [simpl; congruence | by constructor].
    + exists []. split; [reflexivity | constructor].
Qed.

Lemma strip_split (s : str) :
  ∃ l r, s = l ++ strip s ++ r
         ∧ Forall (fun c => isspace c = true) l
         ∧ Forall (fun c => isspace c = true) r.
Proof.
  destruct (lstrip_split s) as [l [Hs Hl]].
  destruct (lstrip_split (reverse (lstrip s))) as [r [Hr Hrs]].
  exists l, (reverse r). repeat split; [| done | by apply Forall_reverse].
  unfold strip, rstrip. rewrite <- reverse_app, <- Hr, reverse_involutive.
  exact Hs.
Qed.

Lemma lstrip_head (s : str) c : head (lstrip s) = Some c → isspace c = false.
Proof.
  induction s as [|d s IH]; simpl; [done|].
  destruct (isspace d) eqn:Hd; [done|]. simpl. congruence.
Qed.

Lemma lstrip_all_space (s : str) :
  Forall (fun c => isspace c = true) s → lstrip s = [].
Proof. induction 1 as [|c s Hc _ IH]; simpl; [done | by rewrite Hc]. Qed.

Lemma lstrip_last (s : str) c : last (lstrip s) = Some c → last s = Some c.
Proof.
  destruct (lstrip_split s) as [l [Hs _]]. intros Hc.
  rewrite Hs, last_app, Hc. done.
Qed.

(** What is left by [strip] neither starts nor ends with whitespace. *)
Lemma strip_ends (s : str) c :
  head (strip s) = Some c ∨ last (strip s) = Some c → isspace c = false.
Proof.
  unfold strip, rstrip. intros [Hc|Hc].
  - rewrite head_reverse in Hc. apply lstrip_last in Hc.
    rewrite last_reverse in Hc. by apply lstrip_head in Hc.
  - rewrite last_reverse in Hc. by apply lstrip_head in Hc.
Qed.

Lemma strip_all_space (s : str) :
  Forall (fun c => isspace c = true) s → strip s = [].
Proof. intros Hs. unfold strip. by rewrite (lstrip_all_space s Hs). Qed.

Lemma replace_nul_no_nul (s : str) : 0 ∉ replace_nul s.
Proof. unfold replace_nul. intros [Hc _]%list_elem_of_filter. by apply Hc. Qed.

Lemma replace_nul_all_nul (s : str) :
  Forall (fun c => c = 0) s → replace_nul s = [].
Proof.
  unfold replace_nul. induction 1 as [|c s Hc _ IH]; [done|].
  rewrite filter_cons. case_decide; [congruence | done].
Qed.

Lemma strip_nul_only (s : str) : Forall (fun c => c = 0) s → strip s = s.
Proof.
  intros Hs. destruct (strip_split s) as (l & r & Heq & Hl & Hr).
  assert (Hnil : ∀ x : str, Forall (fun c => isspace c = true) x →
                            Forall (fun c => c = 0) x → x = []).
  { intros [|c x] Hx Hz; [done|]. inversion Hx; inversion Hz; subst.
    discriminate. }
  rewrite Heq in Hs. apply Forall_app in Hs as [Hl0 Hs].
  apply Forall_app in Hs as [_ Hr0].
  rewrite (Hnil l Hl Hl0), (Hnil r Hr Hr0), app_nil_r in Heq. done.
Qed.

Lemma to_N_byte_of_N n : n < 256 → Byte.to_N (byte_of_N n) = n.
Proof.
  intros Hn. unfold byte_of_N.
  pose proof (Byte.to_of_N_option_map n) as Hmap.
  destruct (n <=? 255) eqn:Hle; [|apply N.leb_gt in Hle; lia].
  destruct (Byte.of_N n) as [x|]; simpl in *; congruence.
Qed.

Lemma byte_of_N_nonzero n : 0 < n → n < 256 → byte_of_N n ≠ "000"%byte.
Proof.
  intros Hpos Hn Heq. apply to_N_byte_of_N in Hn.
  rewrite Heq in Hn. simpl in Hn. lia.
Qed.

Lemma lead_byte_bound base c k d :
  c < k * d → 0 < d → 0 < base → base + k <= 256 →
  0 < base + c / d ∧ base + c / d < 256.
Proof.
  intros Hc Hd Hb Hk.
  assert (Hq : c / d < k) by (apply N.Div0.div_lt_upper_bound; lia).
  revert Hq. generalize (c / d). intros q Hq. lia.
Qed.

Lemma cont_byte_bound c : 0 < 0x80 + c mod 64 ∧ 0x80 + c mod 64 < 256.
Proof.
  assert (Hm : c mod 64 < 64) by (apply N.mod_lt; lia).
  revert Hm. generalize (c mod 64). intros m Hm. lia.
Qed.

Lemma encode_char_is_Some c : is_Some (encode_char c) ↔ encodable_char c.
Proof.
  unfold encode_char, encodable_char.
  destruct (is_surrogate c) eqn:Hs.
  - unfold is_surrogate in Hs.
    apply andb_prop in Hs as [Ha Hb]. apply N.leb_le in Ha, Hb.
    assert ((c <? 0x80) = false) as -> by (apply N.ltb_ge; lia).
    assert ((c <? 0x800) = false) as -> by (apply N.ltb_ge; lia).
    assert ((c <? 0x10000) = true) as -> by (apply N.ltb_lt; lia).
    split; [intros [? [=]] | intros [_ [=]]].
  - destruct (c <? 0x110000) eqn:Hmax.
    + apply N.ltb_lt in Hmax. split; [done|]. intros _.
      destruct (c <? 0x80), (c <? 0x800), (c <? 0x10000); by eexists.
    + apply N.ltb_ge in Hmax.
      assert ((c <? 0x80) = false) as -> by (apply N.ltb_ge; lia).
      assert ((c <? 0x800) = false) as -> by (apply N.ltb_ge; lia).
      assert ((c <? 0x10000) = false) as -> by (apply N.ltb_ge; lia).
      split; [intros [? [=]] | intros [? _]; lia].
Qed.

Lemma encode_char_nonempty c bc : encode_char c = Some bc → bc ≠ [].
Proof.
  unfold encode_char.
  repeat case_match; intros [= <-]; discriminate.
Qed.

Lemma encode_char_no_nul c bc :
  encode_char c = Some bc → c ≠ 0 → "000"%byte ∉ bc.
Proof.
  unfold encode_char. intros Hbc Hc Hin.
  assert (Hbyte : ∀ n, 0 < n ∧ n < 256 → "000"%byte ≠ byte_of_N n).
  { intros n [Hpos Hn] Heq. by apply (byte_of_N_nonzero n). }
  destruct (c <? 0x80) eqn:H1; [apply N.ltb_lt in H1|].
  { injection Hbc as <-. apply list_elem_of_singleton in Hin.
    revert Hin. apply Hbyte. lia. }
  destruct (c <? 0x800) eqn:H2; [apply N.ltb_lt in H2|].
  { injection Hbc as <-.
    repeat (apply elem_of_cons in Hin as [Hin|Hin]);
      [| |by apply elem_of_nil in Hin]; revert Hin; apply Hbyte;
      [apply (lead_byte_bound _ _ 32); lia | apply cont_byte_bound]. }
  destruct (c <? 0x10000) eqn:H3; [apply N.ltb_lt in H3|].
  { destruct (is_surrogate c); [done|]. injection Hbc as <-.
    repeat (apply elem_of_cons in Hin as [Hin|Hin]);
      [| | |by apply elem_of_nil in Hin]; revert Hin; apply Hbyte;
      [apply (lead_byte_bound _ _ 16); lia | apply cont_byte_bound ..]. }
  destruct (c <? 0x110000) eqn:H4; [apply N.ltb_lt in H4|done].
  injection Hbc as <-.
  repeat (apply elem_of_cons in Hin as [Hin|Hin]);
    [| | | |by apply elem_of_nil in Hin]; revert Hin; apply Hbyte;
    [apply (lead_byte_bound _ _ 5); lia | apply cont_byte_bound ..].
Qed.

Lemma encode_utf8_is_Some (s : str) : is_Some (encode_utf8 s) ↔ encodable s.
Proof.
  unfold encodable. induction s as [|c s IH]; simpl.
  - split; [constructor | by eexists].
  - rewrite Forall_cons, <- IH, <- encode_char_is_Some.
    destruct (encode_char c), (encode_utf8 s); split;
      try (intros [? [=]]); try (intros [[? [=]] [? [=]]]);
      try (by eexists); try (by split; eexists).
Qed.

Lemma encode_utf8_nil (s : str) : encode_utf8 s = Some [] → s = [].
Proof.
  destruct s as [|c s]; simpl; [done|].
  destruct (encode_char c) as [bc|] eqn:Hc; [|done].
  destruct (encode_utf8 s); [|done].
  intros [= Happ]. apply app_eq_nil in Happ as [-> _].
  by apply encode_char_nonempty in Hc.
Qed.

Lemma encode_utf8_no_nul (s : str) bs :
  encode_utf8 s = Some bs → 0 ∉ s → "000"%byte ∉ bs.
Proof.
  revert bs. induction s as [|c s IH]; simpl; intros bs.
  - intros [= <-] _. apply not_elem_of_nil.
  - destruct (encode_char c) as [bc|] eqn:Hc; [|done].
    destruct (encode_utf8 s) as [bs'|]; [|done].
    intros [= <-] Hnul. rewrite elem_of_app. intros [Hin|Hin].
    + eapply encode_char_no_nul; [exact Hc| |exact Hin].
      intros ->. apply Hnul. left.
    + apply (IH bs'); [done| |done]. intros H0. apply Hnul. by right.
Qed.

Lemma encodable_char_not_space c : ¬ encodable_char c → isspace c = false.
Proof.
  intros Hc. destruct (isspace c) eqn:Hs; [|done]. exfalso. apply Hc.
  unfold isspace in Hs. unfold encodable_char, is_surrogate.
  repeat (apply orb_prop in Hs as [Hs|Hs]);
    try (apply andb_prop in Hs as [H1 H2]; apply N.leb_le in H1, H2);
    try apply N.eqb_eq in Hs;
    (split; [lia|]); apply andb_false_iff; left; apply N.leb_gt; lia.
Qed.

Lemma encodable_body (s : str) :
  encodable (replace_nul (strip s)) ↔ encodable s.
Proof.
  unfold encodable.
  destruct (strip_split s) as (l & r & Heq & Hl & Hr).
  assert (Hsp : ∀ x : str, Forall (fun c => isspace c = true) x →
                           Forall encodable_char x).
  { intros x Hx. eapply Forall_impl; [exact Hx|]. intros c Hc. simpl in Hc.
    destruct (decide (encodable_char c)) as [|Hn]; [done|].
    apply encodable_char_not_space in Hn. congruence. }
  rewrite Heq at 2. rewrite !Forall_app. unfold replace_nul. split.
  - intros Hin. split_and!; [by apply Hsp | | by apply Hsp].
    apply Forall_forall. intros c Hc. destruct (decide (c = 0)) as [->|Hne].
    + split; [lia | reflexivity].
    + rewrite Forall_forall in Hin. apply Hin, list_elem_of_filter. done.
  - intros (_ & Hin & _). apply Forall_forall.
    intros c [_ Hc]%list_elem_of_filter.
    rewrite Forall_forall in Hin. by apply Hin.
Qed.

(** ** The tree store *)

Lemma getparent_unlink p n (h : heap) m :
  getparent (unlink p n h) m
  = if decide (m = n) then None else getparent h m.
Proof.
  unfold getparent, unlink. case_decide as Hm.
  - subst m. rewrite lookup_alter_eq.
    by destruct (alter _ p h !! n).
  - rewrite lookup_alter_ne by done.
    destruct (decide (p = m)) as [->|Hp].
    + rewrite lookup_alter_eq. by destruct (h !! m).
    + by rewrite lookup_alter_ne.
Qed.

Lemma getchildren_unlink p n (h : heap) m :
  getchildren (unlink p n h) m
  = if decide (m = p) then filter (fun c => c ≠ n) (getchildren h p)
    else getchildren h m.
Proof.
  unfold getchildren, unlink. case_decide as Hm.
  - subst m. destruct (decide (n = p)) as [->|Hn].
    + rewrite !lookup_alter_eq. by destruct (h !! p).
    + rewrite lookup_alter_ne, lookup_alter_eq by done. by destruct (h !! p).
  - destruct (decide (n = m)) as [->|Hn].
    + rewrite lookup_alter_eq, lookup_alter_ne by done. by destruct (h !! m).
    + by rewrite !lookup_alter_ne.
Qed.

Section properties.
Context {lib : Collaborators}.

(** ** [Selector.remove] *)

(** C2. [remove()] raises [CannotRemoveElementWithoutRoot] exactly when the
    held value is not a tree node, raises [CannotRemoveElementWithoutParent]
    exactly when the held node has no parent, and otherwise succeeds and
    unlinks the node: it leaves the child list of its parent and has no
    parent afterwards.  Whatever the outcome, the selector is unchanged and
    the only change of a parent link in the tree is the one of the held node,
    from a parent to none: no node ever gains a parent. *)
Theorem remove_spec (s : Selector.t) (h : heap) :
  let '(o, (s', h')) := Selector.remove (s, h) in
  s' = s
  ∧ (o = Raise CannotRemoveElementWithoutRoot
     ↔ is_element (Selector.root s) = false)
  ∧ (o = Raise CannotRemoveElementWithoutParent
     ↔ ∃ n, Selector.root s = PElem n ∧ getparent h n = None)
  ∧ (o = Ok tt
     ↔ ∃ n p, Selector.root s = PElem n ∧ getparent h n = Some p)
  ∧ (∀ n p, Selector.root s = PElem n → getparent h n = Some p →
       getparent h' n = None
       ∧ (n ∉ getchildren h' p)
       ∧ getchildren h' p = filter (fun c => c ≠ n) (getchildren h p)
       ∧ (∀ m, m ≠ p → getchildren h' m = getchildren h m))
  ∧ (∀ m, (getparent h' m = getparent h m)
          ∨ (Selector.root s = PElem m
             ∧ is_Some (getparent h m) ∧ getparent h' m = None)).
Proof.
  unfold Selector.remove, bind, Selector.self, Selector.read_heap,
    Selector.on_heap, raise, element_remove. simpl.
  destruct (Selector.root s) as [| | | | | | | |n] eqn:Hroot; simpl;
    try (split_and!;
         [ done | by split | split; [done | intros (? & [=] & _)]
         | split; [done | intros (? & ? & [=] & _)]
         | intros ? ? [=] | by left ]).
  destruct (getparent h n) as [p|] eqn:Hpar; simpl.
  - rewrite decide_True by done. split_and!; try done.
    + split; [done | intros (? & [= <-] & ?); congruence].
    + split; [intros _; by exists n, p | done].
    + intros n' p' [= <-] Hp'. rewrite Hpar in Hp'. injection Hp' as <-.
      split_and!.
      * rewrite getparent_unlink. by rewrite decide_True.
      * rewrite getchildren_unlink, decide_True by done.
        intros [Hn _]%list_elem_of_filter. by apply Hn.
      * by rewrite getchildren_unlink, decide_True.
      * intros m Hm. by rewrite getchildren_unlink, decide_False.
    + intros m. rewrite getparent_unlink. case_decide as Hm.
      * subst m. right. by rewrite Hpar.
      * by left.
  - split_and!; try done.
    + split; [intros _; by exists n | done].
    + split; [done | intros (? & ? & [= <-] & ?); congruence].
    + intros n' p' [= <-]. congruence.
    + by left.
Qed.

(** ** Extraction *)

Lemma get_total (s : Selector.t) (h : heap) :
  ∃ v, Selector.get (s, h) = (Ok v, (s, h)).
Proof.
  unfold Selector.get, bind, Selector.self, Selector.read_heap, ret,
    lift_outcome. simpl.
  destruct (Selector.type s); simpl; try (by eexists).
  - destruct (Selector.root s) as [|[]| | | | | | |]; by eexists.
  - destruct (Selector.root s) as [|[]| | | | | | |]; by eexists.
Qed.

(** On a tree kind [get()] is a string, whatever the selector holds. *)
Lemma get_tree_kind (s : Selector.t) (h : heap) :
  Selector.type s = Html ∨ Selector.type s = Xml →
  ∃ v, Selector.get (s, h) = (Ok (PStr v), (s, h)).
Proof.
  unfold Selector.get, bind, Selector.self, Selector.read_heap, ret,
    lift_outcome. simpl.
  intros [-> | ->]; simpl;
    destruct (Selector.root s) as [|[]| | | | | | |]; by eexists.
Qed.


(** ** Construction *)

Lemma kind_of_name_of_kind k : kind_of_name (name_of_kind k) = Some k.
Proof. by destruct k. Qed.

Lemma for_each_ok {S A B} (f : A → M S B) (g : A → B) (xs : list A) (st : S) :
  (∀ x, f x st = (Ok (g x), st)) →
  for_each f xs st = (Ok (g <$> xs), st).
Proof.
  intros Hf. induction xs as [|x xs IH]; simpl; [done|].
  unfold bind at 1. rewrite Hf. unfold bind at 1. by rewrite IH.
Qed.

(** Wrapping a value with an explicit kind never fails and does not touch
    the tree. *)
Lemma init_with_root k ns (x : pyval) base expr (h : heap) :
  Selector.__init__ PNone (Some (name_of_kind k)) ns (Some x) base expr h
  = (Ok {| Selector.namespaces :=
             Selector.updated Selector._default_namespaces ns;
           Selector.type := k; Selector._expr := expr; Selector.root := x;
           Selector._text := None |}, h).
Proof.
  unfold Selector.__init__, Selector.check_type, bind, lift_outcome.
  by rewrite kind_of_name_of_kind.
Qed.

Lemma seeded_update (ns : nsmap) :
  seeded ns → Selector.updated Selector._default_namespaces (Some ns) = ns.
Proof.
  unfold seeded. intros Hns. simpl. apply map_eq. intros p.
  rewrite lookup_union. destruct (ns !! p) as [v|] eqn:Hp.
  - by destruct (Selector._default_namespaces !! p).
  - destruct (Selector._default_namespaces !! p) as [v|] eqn:Hd; [|done].
    assert (Hin : p ∈ dom ns) by (apply Hns, elem_of_dom; by eexists).
    apply elem_of_dom in Hin as [? ?]. congruence.
Qed.

Lemma updated_seeded (ns : option nsmap) :
  seeded (Selector.updated Selector._default_namespaces ns).
Proof.
  unfold seeded. destruct ns as [ns|]; simpl; [|done].
  rewrite dom_union_L. apply union_subseteq_r.
Qed.

(** Every selector that [__init__] returns has the built-in prefixes. *)
Lemma init_seeded text type ns root base expr (h h' : heap) s :
  Selector.__init__ text type ns root base expr h = (Ok s, h') →
  seeded (Selector.namespaces s).
Proof.
  unfold Selector.__init__, bind, lift_outcome, ret, raise.
  destruct (Selector.check_type type) as [ty|]; [|done].
  pose proof (updated_seeded ns) as Hns.
  destruct text as [| | | |v| | | |]; try done;
    [destruct root; [|done]; by intros [= <- _]|].
  destruct ty as [[]|];
    try (by intros [= <- _]);
    try (destruct (_load_json_or_none _); by intros [= <- _]);
    try (destruct (Selector._get_root _ _ _ _) as [[]]; by intros [= <- _]).
Qed.

(** [register_namespace] keeps them. *)
Lemma register_namespace_seeded prefix uri (s : Selector.t) (h : heap) :
  seeded (Selector.namespaces s) →
  seeded (Selector.namespaces
            (Selector.register_namespace prefix uri (s, h)).2.1).
Proof.
  unfold seeded. simpl. intros Hs. rewrite dom_insert_L.
  etrans; [exact Hs | apply union_subseteq_r].
Qed.

(** ** [Selector.xpath] and [Selector.css] *)

Lemma tree_kind_tree method (s : Selector.t) (h : heap) :
  Selector.type s = Html ∨ Selector.type s = Xml →
  Selector.tree_kind method (s, h) = (Ok tt, (s, h)).
Proof.
  unfold Selector.tree_kind, bind, Selector.self. simpl.
  by intros [-> | ->].
Qed.

(** The gate may change the kind and the root of the selector, not its
    registry. *)
Lemma tree_kind_namespaces method (s : Selector.t) (h : heap) :
  Selector.namespaces (Selector.tree_kind method (s, h)).2.1
  = Selector.namespaces s.
Proof.
  unfold Selector.tree_kind, bind, Selector.self. simpl.
  destruct (Selector.type s); try done.
  unfold Selector._load_lxml_root, bind, Selector.set_type, Selector.on_heap.
  simpl. destruct (Selector._get_root _ _ _ _) as [[r|e] h']; done.
Qed.

(** [xpath] once the gate is passed: a selector that holds no element gives
    the empty list; otherwise the evaluator runs on the held element with the
    registry of the selector updated by the call-scoped mapping, and every
    item of its result is wrapped. *)
Lemma xpath_after_gate query ns kw (s : Selector.t) (h : heap) s1 h1 :
  Selector.tree_kind "xpath" (s, h) = (Ok tt, (s1, h1)) →
  seeded (Selector.namespaces s1) →
  Selector.xpath query ns kw (s, h)
  = (match Selector.root s1 with
     | PElem n =>
         match element_xpath h1 n query
                 (Selector.updated (Selector.namespaces s1) ns) kw with
         | XPathValue v => Ok (xpath_result s1 query <$> Selector.listify v)
         | XPathError msg =>
             Raise (ValueError (u "XPath error: " ++ msg ++ u " in " ++ query))
         | XPathRaise e => Raise e
         end
     | _ => Ok []
     end, (s1, h1)).
Proof.
  intros Hgate Hseed. unfold Selector.xpath. unfold bind at 1.
  rewrite Hgate. unfold bind, Selector.self, Selector.read_heap. simpl.
  destruct (Selector.root s1) as [| | | | | | | |n]; try done.
  destruct (element_xpath _ _ _ _ _) as [v|msg|e]; try done.
  unfold Selector.on_heap. simpl.
  rewrite (for_each_ok _ (xpath_result s1 query)); [done|].
  intros x. rewrite init_with_root. by rewrite seeded_update.
Qed.

Lemma xpath_gate_raise query ns kw (s : Selector.t) (h : heap) e st :
  Selector.tree_kind "xpath" (s, h) = (Raise e, st) →
  Selector.xpath query ns kw (s, h) = (Raise e, st).
Proof.
  intros Hgate. unfold Selector.xpath. unfold bind at 1. by rewrite Hgate.
Qed.

Lemma updated_lookup (a : nsmap) (ns : option nsmap) (p : str) :
  Selector.updated a ns !! p
  = match ns ≫= (fun m => m !! p) with
    | Some uri => Some uri
    | None => a !! p
    end.
Proof.
  destruct ns as [m|]; simpl; [|done].
  rewrite lookup_union. destruct (m !! p), (a !! p); done.
Qed.

(** C6. An [xpath] call with a call-scoped mapping [ns] on a selector [s]
    whose registry has the built-in prefixes: the evaluator receives the
    registry of [s] updated by [ns] (on a prefix of both, the URI of [ns]);
    after the call the registry of [s] is what it was, so a later call
    without a mapping evaluates with the registry of [s] alone; and every
    selector of the result carries the registry of [s]. *)
Theorem xpath_namespaces_frame query ns kw (s : Selector.t) (h : heap) :
  seeded (Selector.namespaces s) →
  let '(o, (s', h')) := Selector.xpath query ns kw (s, h) in
  Selector.namespaces s' = Selector.namespaces s
  ∧ (∀ l, o = Ok l →
       Forall (fun r => Selector.namespaces r = Selector.namespaces s) l)
  ∧ (∀ s1 h1 n,
       Selector.tree_kind "xpath" (s, h) = (Ok tt, (s1, h1)) →
       Selector.root s1 = PElem n →
       ∃ nsp,
         (∀ p, nsp !! p = match ns ≫= (fun m => m !! p) with
                          | Some uri => Some uri
                          | None => Selector.namespaces s !! p
                          end)
         ∧ (s', h') = (s1, h1)
         ∧ o = match element_xpath h1 n query nsp kw with
               | XPathValue v =>
                   Ok (xpath_result s1 query <$> Selector.listify v)
               | XPathError msg =>
                   Raise (ValueError
                            (u "XPath error: " ++ msg ++ u " in " ++ query))
               | XPathRaise e => Raise e
               end)
  ∧ (∀ query' kw' s1 h1 n,
       Selector.tree_kind "xpath" (s', h') = (Ok tt, (s1, h1)) →
       Selector.root s1 = PElem n →
       (Selector.xpath query' None kw' (s', h')).1
       = match element_xpath h1 n query' (Selector.namespaces s) kw' with
         | XPathValue v => Ok (xpath_result s1 query' <$> Selector.listify v)
         | XPathError msg =>
             Raise (ValueError
                      (u "XPath error: " ++ msg ++ u " in " ++ query'))
         | XPathRaise e => Raise e
         end).
Proof.
  intros Hseed.
  pose proof (tree_kind_namespaces "xpath" s h) as Hns.
  destruct (Selector.tree_kind "xpath" (s, h)) as [[[]|e] [s1 h1]] eqn:Hgate;
    simpl in Hns.
  - assert (Hseed1 : seeded (Selector.namespaces s1)) by by rewrite Hns.
    rewrite (xpath_after_gate _ _ _ _ _ _ _ Hgate Hseed1).
    split_and!.
    + done.
    + intros l Hl. destruct (Selector.root s1) as [| | | | | | | |n];
        try (injection Hl as <-; constructor).
      destruct (element_xpath _ _ _ _ _) as [v| |]; try done.
      injection Hl as <-. apply Forall_fmap, Forall_true. done.
    + intros s2 h2 n [= <- <-] Hroot. rewrite Hroot, Hns.
      exists (Selector.updated (Selector.namespaces s) ns).
      split_and!; [apply updated_lookup | done | done].
    + intros query' kw' s2 h2 n Hgate2 Hroot.
      assert (Hseed2 : seeded (Selector.namespaces s2)).
      { pose proof (tree_kind_namespaces "xpath" s1 h1) as Hns2.
        rewrite Hgate2 in Hns2. simpl in Hns2. by rewrite Hns2. }
      rewrite (xpath_after_gate _ _ _ _ _ _ _ Hgate2 Hseed2), Hroot. simpl.
      pose proof (tree_kind_namespaces "xpath" s1 h1) as Hns2.
      rewrite Hgate2 in Hns2. simpl in Hns2. by rewrite Hns2, Hns.
  - rewrite (xpath_gate_raise _ _ _ _ _ _ _ Hgate).
    split_and!; [done | done | done |].
    intros query' kw' s2 h2 n Hgate2 Hroot.
    assert (Hseed2 : seeded (Selector.namespaces s2)).
    { pose proof (tree_kind_namespaces "xpath" s1 h1) as Hns2.
      rewrite Hgate2 in Hns2. simpl in Hns2. by rewrite Hns2, Hns. }
    rewrite (xpath_after_gate _ _ _ _ _ _ _ Hgate2 Hseed2), Hroot. simpl.
    pose proof (tree_kind_namespaces "xpath" s1 h1) as Hns2.
    rewrite Hgate2 in Hns2. simpl in Hns2. by rewrite Hns2, Hns.
Qed.

Lemma load_lxml_root_spec text k base (s : Selector.t) (h : heap) :
  Selector._load_lxml_root text k base (s, h)
  = match Selector._get_root k text base h with
    | (Ok r, h') =>
        (Ok tt, ({| Selector.namespaces := Selector.namespaces s;
                    Selector.type := k;
                    Selector._expr := Selector._expr s;
                    Selector.root := r;
                    Selector._text := Selector._text s |}, h'))
    | (Raise e, h') =>
        (Raise e, ({| Selector.namespaces := Selector.namespaces s;
                      Selector.type := k;
                      Selector._expr := Selector._expr s;
                      Selector.root := Selector.root s;
                      Selector._text := Selector._text s |}, h'))
    end.
Proof.
  unfold Selector._load_lxml_root, bind, Selector.set_type, Selector.on_heap,
    Selector.set_root. simpl.
  by destruct (Selector._get_root _ _ _ _) as [[r|e] h'].
Qed.

Lemma css_after_gate query (s : Selector.t) (h : heap) s1 h1 e :
  Selector.tree_kind "css" (s, h) = (Ok tt, (s1, h1)) →
  _ctgroup (Selector.type s1) = Ok e →
  Selector.css query (s, h)
  = match css_to_xpath (_csstranslator e) query with
    | Ok x => Selector.xpath x None [] (s1, h1)
    | Raise err => (Raise err, (s1, h1))
    end.
Proof.
  intros Hgate He. unfold Selector.css. unfold bind at 1. rewrite Hgate.
  unfold bind at 1. unfold Selector._css2xpath, bind, Selector.self,
    lift_outcome. simpl. rewrite He.
  by destruct (css_to_xpath _ _).
Qed.

(** C3. [css(q)] on a selector of kind html or xml is [xpath(t(q))], [t]
    being the translator of the kind ([HTMLTranslator] for html,
    [GenericTranslator] for xml); when the translation fails its error is
    the outcome of [css] and nothing else happens.  A selector of kind text
    is first promoted to html (its text is parsed with the HTML parser, and
    a failure of that step is the outcome of [css]); the query is then
    translated by the HTML translator and run on the promoted selector.  A
    selector of kind json is refused. *)
Theorem css_is_xpath_of_translation query (s : Selector.t) (h : heap) :
  Selector.css query (s, h)
  = match Selector.type s with
    | Html =>
        match css_to_xpath HTMLTranslator query with
        | Ok x => Selector.xpath x None [] (s, h)
        | Raise err => (Raise err, (s, h))
        end
    | Xml =>
        match css_to_xpath GenericTranslator query with
        | Ok x => Selector.xpath x None [] (s, h)
        | Raise err => (Raise err, (s, h))
        end
    | Text =>
        match create_root_node (Selector.root s) HTMLParser None h with
        | (Ok r, h') =>
            let promoted :=
              {| Selector.namespaces := Selector.namespaces s;
                 Selector.type := Html;
                 Selector._expr := Selector._expr s;
                 Selector.root := r;
                 Selector._text := Selector._text s |} in
            match css_to_xpath HTMLTranslator query with
            | Ok x => Selector.xpath x None [] (promoted, h')
            | Raise err => (Raise err, (promoted, h'))
            end
        | (Raise e, h') =>
            (Raise e,
             ({| Selector.namespaces := Selector.namespaces s;
                 Selector.type := Html;
                 Selector._expr := Selector._expr s;
                 Selector.root := Selector.root s;
                 Selector._text := Selector._text s |}, h'))
        end
    | Json =>
        (Raise (ValueError (u "Cannot use css on a Selector of type 'json'")),
         (s, h))
    end.
Proof.
  destruct (Selector.type s) eqn:Hty.
  - rewrite (css_after_gate query s h s h
               {| _parser := HTMLParser; _csstranslator := HTMLTranslator;
                  _tostring_method := u "html" |}); [done | | by rewrite Hty].
    apply tree_kind_tree. by left.
  - rewrite (css_after_gate query s h s h
               {| _parser := SafeXMLParser;
                  _csstranslator := GenericTranslator;
                  _tostring_method := u "xml" |}); [done | | by rewrite Hty].
    apply tree_kind_tree. by right.
  - unfold Selector.css. unfold bind at 1.
    unfold Selector.tree_kind, bind, Selector.self. simpl. by rewrite Hty.
  - assert (Hgate : Selector.tree_kind "css" (s, h)
                    = Selector._load_lxml_root (Selector.root s) Html None
                        (s, h)).
    { unfold Selector.tree_kind, bind, Selector.self. simpl. by rewrite Hty. }
    rewrite load_lxml_root_spec in Hgate.
    unfold Selector._get_root, bind, lift_outcome in Hgate. simpl in Hgate.
    destruct (create_root_node _ _ _ _) as [[r|e] h'] eqn:Hroot.
    + by rewrite (css_after_gate query s h _ h'
                    {| _parser := HTMLParser;
                       _csstranslator := HTMLTranslator;
                       _tostring_method := u "html" |} Hgate).
    + unfold Selector.css. unfold bind at 1. by rewrite Hgate.
Qed.

(** [xpath] on a tree kind does not look at the query when the selector
    holds no element. *)
Lemma xpath_without_element query ns kw (s : Selector.t) (h : heap) :
  Selector.type s = Html ∨ Selector.type s = Xml →
  is_element (Selector.root s) = false →
  Selector.xpath query ns kw (s, h) = (Ok [], (s, h)).
Proof.
  intros Hty Hroot. unfold Selector.xpath. unfold bind at 1.
  rewrite (tree_kind_tree _ _ _ Hty).
  unfold bind, Selector.self. simpl.
  by destruct (Selector.root s).
Qed.

(** ** The root materializer *)

Lemma root_body_None (v : str) : root_body v = None ↔ ¬ encodable v.
Proof.
  rewrite <- encodable_body, <- encode_utf8_is_Some. unfold root_body.
  destruct (encode_utf8 (replace_nul (strip v))) as [[|c bs]|]; split;
    try done; try (intros Hn; exfalso; apply Hn; by eexists);
    try (intros _ [? [=]]).
Qed.

(** The body handed to the parser: never empty, free of NUL bytes, the
    stand-in [<html/>] when nothing is left of the text and the UTF-8
    encoding of what is left otherwise. *)
Lemma root_body_spec (v : str) :
  encodable v →
  ∃ body, root_body v = Some body
          ∧ body ≠ []
          ∧ ("000"%byte ∉ body)
          ∧ (replace_nul (strip v) = [] → body = b "<html/>")
          ∧ (replace_nul (strip v) ≠ [] →
             encode_utf8 (replace_nul (strip v)) = Some body).
Proof.
  intros Henc. apply encodable_body, encode_utf8_is_Some in Henc as [enc Henc].
  unfold root_body. rewrite Henc.
  destruct enc as [|c enc].
  - exists (b "<html/>"). split_and!; try done.
    + intros Hin. repeat (apply elem_of_cons in Hin as [[=]|Hin]).
      by apply elem_of_nil in Hin.
    + intros Hne. by apply encode_utf8_nil in Henc.
  - exists (c :: enc). split_and!; try done.
    + eapply encode_utf8_no_nul; [exact Henc | apply replace_nul_no_nul].
    + intros Hnil. rewrite Hnil in Henc. discriminate.
Qed.

Lemma create_root_node_spec (v : str) p base (h : heap) :
  create_root_node (PStr v) p base h
  = match root_body v with
    | None => (Raise UnicodeEncodeError, h)
    | Some body =>
        match etree_fromstring p body base h with
        | (Some n, h1) => (Ok (PElem n), h1)
        | (None, h1) =>
            match etree_fromstring p (b "<html/>") base h1 with
            | (Some n, h2) => (Ok (PElem n), h2)
            | (None, h2) => (Ok PNone, h2)
            end
        end
    end.
Proof.
  unfold create_root_node. destruct (root_body v) as [body|]; [|done].
  unfold bind, fromstring.
  destruct (etree_fromstring p body base h) as [[n|] h1]; [done|].
  by destruct (etree_fromstring p _ base h1) as [[n|] h2].
Qed.

(** C1. Building a selector of kind html or xml (html when no kind is given)
    from a text that UTF-8 can encode never raises.  [strip] removes a run of
    whitespace at each end of the text and leaves no whitespace at either
    end; [replace] then removes the NUL characters and nothing else.  The
    parser receives the encoding of what is left, and [<html/>] when nothing
    is left (as for the empty text, a text of whitespace, a text of NUL
    characters); so the body is never empty and has no NUL byte.  When the
    parser gives no root it is run again on [<html/>].  [get()] on the
    selector built returns a string. *)
Theorem init_tree_kind_total (v : str) type ns root base expr (h : heap) :
  encodable v →
  type = None ∨ type = Some (u "html") ∨ type = Some (u "xml") →
  ∃ body s h',
    root_body v = Some body
    ∧ (∃ l r, v = l ++ strip v ++ r
              ∧ Forall (fun c => isspace c = true) l
              ∧ Forall (fun c => isspace c = true) r)
    ∧ (∀ c, head (strip v) = Some c ∨ last (strip v) = Some c →
            isspace c = false)
    ∧ (∀ c, c ∈ replace_nul (strip v) ↔ c ∈ strip v ∧ c ≠ 0)
    ∧ body ≠ []
    ∧ ("000"%byte ∉ body)
    ∧ (replace_nul (strip v) = [] → body = b "<html/>")
    ∧ (replace_nul (strip v) ≠ [] →
       encode_utf8 (replace_nul (strip v)) = Some body)
    ∧ (v = [] ∨ Forall (fun c => isspace c = true) v
       ∨ Forall (fun c => c = 0) v → body = b "<html/>")
    ∧ Selector.__init__ (PStr v) type ns root base expr h = (Ok s, h')
    ∧ Selector.type s = (if decide (type = Some (u "xml")) then Xml else Html)
    ∧ (let p := if decide (type = Some (u "xml")) then SafeXMLParser
                else HTMLParser in
       (Selector.root s, h')
       = match etree_fromstring p body base h with
         | (Some n, h1) => (PElem n, h1)
         | (None, h1) =>
             match etree_fromstring p (b "<html/>") base h1 with
             | (Some n, h2) => (PElem n, h2)
             | (None, h2) => (PNone, h2)
             end
         end)
    ∧ ∃ out, Selector.get (s, h') = (Ok (PStr out), (s, h')).
Proof.
  intros Henc Hty.
  destruct (root_body_spec v Henc) as (body & Hbody & Hne & Hnul & Hnil & Hsome).
  assert (Hinit : ∀ k p ty,
    _ctgroup k = Ok p →
    Selector.check_type type = Ok ty →
    default Html ty = k →
    k = Html ∨ k = Xml →
    ∃ s h',
      Selector.__init__ (PStr v) type ns root base expr h = (Ok s, h')
      ∧ Selector.type s = k
      ∧ (Selector.root s, h')
        = match etree_fromstring (_parser p) body base h with
          | (Some n, h1) => (PElem n, h1)
          | (None, h1) =>
              match etree_fromstring (_parser p) (b "<html/>") base h1 with
              | (Some n, h2) => (PElem n, h2)
              | (None, h2) => (PNone, h2)
              end
          end).
  { intros k p ty Hp Hcheck Hdef Hk.
    unfold Selector.__init__. unfold bind at 1. unfold lift_outcome.
    rewrite Hcheck.
    assert (Hroot : Selector._get_root k (PStr v) base h
                    = create_root_node (PStr v) (_parser p) base h).
    { unfold Selector._get_root, bind, lift_outcome. by rewrite Hp. }
    rewrite create_root_node_spec, Hbody in Hroot.
    assert (Hload :
      (let* r := Selector._get_root (default Html ty) (PStr v) base in
       ret {| Selector.namespaces :=
                Selector.updated Selector._default_namespaces ns;
              Selector.type := default Html ty; Selector._expr := expr;
              Selector.root := r; Selector._text := Some v |}) h
      = match etree_fromstring (_parser p) body base h with
        | (Some n, h1) =>
            (Ok {| Selector.namespaces :=
                     Selector.updated Selector._default_namespaces ns;
                   Selector.type := k; Selector._expr := expr;
                   Selector.root := PElem n; Selector._text := Some v |}, h1)
        | (None, h1) =>
            match etree_fromstring (_parser p) (b "<html/>") base h1 with
            | (Some n, h2) =>
                (Ok {| Selector.namespaces :=
                         Selector.updated Selector._default_namespaces ns;
                       Selector.type := k; Selector._expr := expr;
                       Selector.root := PElem n; Selector._text := Some v |},
                 h2)
            | (None, h2) =>
                (Ok {| Selector.namespaces :=
                         Selector.updated Selector._default_namespaces ns;
                       Selector.type := k; Selector._expr := expr;
                       Selector.root := PNone; Selector._text := Some v |},
                 h2)
            end
        end).
    { unfold bind, ret. rewrite Hdef, Hroot.
      destruct (etree_fromstring _ body base h) as [[n|] h1]; [done|].
      by destruct (etree_fromstring _ _ base h1) as [[n|] h2]. }
    assert (Hgoal : ∃ s h',
      (let* r := Selector._get_root (default Html ty) (PStr v) base in
       ret {| Selector.namespaces :=
                Selector.updated Selector._default_namespaces ns;
              Selector.type := default Html ty; Selector._expr := expr;
              Selector.root := r; Selector._text := Some v |}) h = (Ok s, h')
      ∧ Selector.type s = k
      ∧ (Selector.root s, h')
        = match etree_fromstring (_parser p) body base h with
          | (Some n, h1) => (PElem n, h1)
          | (None, h1) =>
              match etree_fromstring (_parser p) (b "<html/>") base h1 with
              | (Some n, h2) => (PElem n, h2)
              | (None, h2) => (PNone, h2)
              end
          end).
    { rewrite Hload.
      destruct (etree_fromstring _ body base h) as [[n|] h1];
        [by eexists _, _|].
      destruct (etree_fromstring _ _ base h1) as [[n|] h2]; by eexists _, _. }
    destruct ty as [[]|]; simpl in Hdef; try exact Hgoal;
      destruct Hk; congruence. }
  assert (Hcases : ∃ s h',
    Selector.__init__ (PStr v) type ns root base expr h = (Ok s, h')
    ∧ Selector.type s = (if decide (type = Some (u "xml")) then Xml else Html)
    ∧ (Selector.root s, h')
      = match etree_fromstring
                (if decide (type = Some (u "xml")) then SafeXMLParser
                 else HTMLParser) body base h with
        | (Some n, h1) => (PElem n, h1)
        | (None, h1) =>
            match etree_fromstring
                    (if decide (type = Some (u "xml")) then SafeXMLParser
                     else HTMLParser) (b "<html/>") base h1 with
            | (Some n, h2) => (PElem n, h2)
            | (None, h2) => (PNone, h2)
            end
        end).
  { destruct Hty as [-> | [-> | ->]].
    - by apply (Hinit Html {| _parser := HTMLParser;
                              _csstranslator := HTMLTranslator;
                              _tostring_method := u "html" |} None);
        [| | | left].
    - by apply (Hinit Html {| _parser := HTMLParser;
                              _csstranslator := HTMLTranslator;
                              _tostring_method := u "html" |} (Some Html));
        [| | | left].
    - by apply (Hinit Xml {| _parser := SafeXMLParser;
                             _csstranslator := GenericTranslator;
                             _tostring_method := u "xml" |} (Some Xml));
        [| | | right]. }
  destruct Hcases as (s & h' & Hs & Hkind & Hroot).
  exists body, s, h'. split_and!; try done.
  - apply strip_split.
  - apply strip_ends.
  - intros c. unfold replace_nul. rewrite list_elem_of_filter. tauto.
  - intros [-> | [Hsp | Hz]]; apply Hnil.
    + done.
    + by rewrite strip_all_space.
    + rewrite strip_nul_only by done. by apply replace_nul_all_nul.
  - apply get_tree_kind. rewrite Hkind. case_decide; [by right | by left].
Qed.

Lemma kind_of_name_inv t k : kind_of_name t = Some k → t = name_of_kind k.
Proof.
  unfold kind_of_name. repeat case_decide; intros [= <-]; by subst.
Qed.

Lemma get_root_tree k (v : str) base (h : heap) :
  k = Html ∨ k = Xml →
  (encodable v → ∃ r h', Selector._get_root k (PStr v) base h = (Ok r, h'))
  ∧ (¬ encodable v →
     Selector._get_root k (PStr v) base h = (Raise UnicodeEncodeError, h)).
Proof.
  intros Hk.
  assert (Hroot : ∃ p, Selector._get_root k (PStr v) base h
                       = create_root_node (PStr v) p base h).
  { unfold Selector._get_root, bind, lift_outcome.
    destruct Hk as [-> | ->]; by eexists. }
  destruct Hroot as [p ->]. rewrite create_root_node_spec. split.
  - intros Henc. destruct (root_body_spec v Henc) as (body & -> & _).
    destruct (etree_fromstring p body base h) as [[n|] h1]; [by eexists _, _|].
    destruct (etree_fromstring p _ base h1) as [[n|] h2]; by eexists _, _.
  - intros Henc. apply root_body_None in Henc. by rewrite Henc.
Qed.

(** C7. [__init__] raises exactly in five cases: neither [text] nor [root]
    is given; [type] is given and is none of html, json, text, xml; [text] is
    given and is not a character string; [text] is given for a tree kind
    (html, xml, or no kind) and holds a code point that UTF-8 cannot encode
    (a lone surrogate); or [text] is given for the kind json and [json.loads]
    raises on it an exception that is not a [ValueError] (a [RecursionError]
    on a deeply nested text).  In every other case a selector is built. *)
Theorem init_raises_iff (text : pyval) type ns root base expr (h : heap) :
  (∃ e h', Selector.__init__ text type ns root base expr h = (Raise e, h'))
  ↔ (text = PNone ∧ root = None)
    ∨ (∃ t, type = Some t ∧ kind_of_name t = None)
    ∨ (text ≠ PNone ∧ is_text text = false)
    ∨ (∃ v, text = PStr v
            ∧ (type = None ∨ type = Some (u "html") ∨ type = Some (u "xml"))
            ∧ ¬ encodable v)
    ∨ (∃ v e, text = PStr v
              ∧ type = Some (u "json")
              ∧ json_loads v = Raise e
              ∧ is_ValueError e = false).
Proof.
  unfold Selector.__init__. unfold bind at 1. unfold lift_outcome.
  assert (Hcheck :
    (∃ t, type = Some t ∧ kind_of_name t = None
          ∧ ∃ e, Selector.check_type type = Raise e)
    ∨ (∃ ty, Selector.check_type type = Ok ty
             ∧ (ty = None ↔ type = None)
             ∧ (∀ k, ty = Some k ↔ type = Some (name_of_kind k)))).
  { destruct type as [t|]; simpl.
    - destruct (kind_of_name t) as [k|] eqn:Hk.
      + right. exists (Some k). split_and!; [done | done |].
        intros k'. split.
        * intros [= <-]. by rewrite (kind_of_name_inv _ _ Hk).
        * intros [= ->]. rewrite kind_of_name_of_kind in Hk. congruence.
      + left. exists t. split_and!; [done | done | by eexists].
    - right. exists None. split_and!; [done | done |].
      intros k. split; intros [=]. }
  destruct Hcheck as [(t & Ht & Hk & e & ->) | (ty & -> & Hnone & Hsome)].
  { split; [intros _; right; left; by exists t | intros _; by eexists _, _]. }
  assert (Hvalid : ¬ ∃ t, type = Some t ∧ kind_of_name t = None).
  { intros (t & -> & Hk). destruct ty as [k|].
    - specialize (Hsome k) as [Hs _]. specialize (Hs eq_refl).
      injection Hs as ->. rewrite kind_of_name_of_kind in Hk. done.
    - destruct Hnone as [Hn _]. by specialize (Hn eq_refl). }
  destruct text as [| | | |v| | | |];
    try (split; [intros _; right; right; left; by split
                | intros _; by eexists _, _]).
  - destruct root as [r|].
    + split; [intros (? & ? & [=])|].
      intros [[_ [=]] | [Hb | [[Hc _] | [(? & [=] & _) | (? & ? & [=] & _)]]]];
        done.
    + split; [intros _; by left | intros _; by eexists _, _].
  - assert (Hrest : ∀ P : Prop,
      (P ↔ ((type = None ∨ type = Some (u "html") ∨ type = Some (u "xml"))
            ∧ ¬ encodable v)
           ∨ (type = Some (u "json")
              ∧ ∃ e, json_loads v = Raise e ∧ is_ValueError e = false)) →
      P ↔ (PStr v = PNone ∧ root = None)
          ∨ (∃ t, type = Some t ∧ kind_of_name t = None)
          ∨ (PStr v ≠ PNone ∧ is_text (PStr v) = false)
          ∨ (∃ v0, PStr v = PStr v0
                   ∧ (type = None ∨ type = Some (u "html")
                      ∨ type = Some (u "xml"))
                   ∧ ¬ encodable v0)
          ∨ (∃ v0 e, PStr v = PStr v0
                     ∧ type = Some (u "json")
                     ∧ json_loads v0 = Raise e
                     ∧ is_ValueError e = false)).
    { intros P ->. split.
      - intros [[Hty Henc] | (Hty & e & Hl & He)].
        + right; right; right; left. by exists v.
        + right; right; right; right. by exists v, e.
      - intros [[[=] _] | [Hb | [[_ [=]] | [(v0 & [= <-] & Hty & Henc)
                                           | (v0 & e & [= <-] & Hty & Hl & He)]]]].
        + done.
        + by left.
        + right. split; [done | by exists e]. }
    apply Hrest.
    assert (Htree : ∀ k, default Html ty = k → k = Html ∨ k = Xml →
      (∃ e h',
         (let* r := Selector._get_root k (PStr v) base in
          ret {| Selector.namespaces :=
                   Selector.updated Selector._default_namespaces ns;
                 Selector.type := k; Selector._expr := expr;
                 Selector.root := r; Selector._text := Some v |}) h
         = (Raise e, h'))
      ↔ ¬ encodable v).
    { intros k _ Hk. destruct (get_root_tree k v base h Hk) as [Hok Hraise].
      unfold bind, ret. split.
      - intros (e & h' & Hr) Henc. destruct (Hok Henc) as (r & h1 & Hr1).
        by rewrite Hr1 in Hr.
      - intros Henc. rewrite (Hraise Henc). by eexists _, _. }
    destruct ty as [[]|]; simpl.
    + pose proof (proj1 (Hsome Html) eq_refl) as Hj.
      rewrite (Htree Html) by (done || by left). split.
      * intros Henc. left. split; [by right; left | done].
      * intros [[_ ?] | [Hty _]]; [done|]. rewrite Hj in Hty. by inversion Hty.
    + pose proof (proj1 (Hsome Xml) eq_refl) as Hj.
      rewrite (Htree Xml) by (done || by right). split.
      * intros Henc. left. split; [by right; right | done].
      * intros [[_ ?] | [Hty _]]; [done|]. rewrite Hj in Hty. by inversion Hty.
    + pose proof (proj1 (Hsome Json) eq_refl) as Hj.
      unfold bind, ret, _load_json_or_none.
      assert (Hnot : ¬ (type = None ∨ type = Some (u "html")
                        ∨ type = Some (u "xml"))).
      { rewrite Hj. by intros [[=] | [[=] | [=]]]. }
      destruct (json_loads v) as [d|e] eqn:Hl.
      * split; [intros (? & ? & [=])|].
        intros [[Hty _] | (_ & e & [=] & _)]. by destruct Hnot.
      * destruct (is_ValueError e) eqn:He.
        -- split; [intros (? & ? & [=])|].
           intros [[Hty _] | (_ & e' & [= <-] & He')];
             [by destruct Hnot | congruence].
        -- split; [|intros _; by eexists _, _].
           intros _. right. split; [done | by exists e].
    + pose proof (proj1 (Hsome Text) eq_refl) as Hj.
      split; [intros (? & ? & [=])|].
      intros [[Hty _] | [Hty _]]; rewrite Hj in Hty.
      * by destruct Hty as [[=] | [[=] | [=]]].
      * by inversion Hty.
    + pose proof (proj1 Hnone eq_refl) as Hj.
      rewrite (Htree Html) by (done || by left). split.
      * intros Henc. left. split; [by left | done].
      * intros [[_ ?] | [Hty _]]; [done|]. rewrite Hj in Hty. by inversion Hty.
Qed.

(** C10. On a selector of kind html or xml that holds no tree node (a
    string, a number, a boolean, nothing), [xpath] returns the empty list for
    every query, without raising and without change.  [css] on such a
    selector returns the empty list for every query that the translator of
    the kind accepts; for a query that the translator refuses, the error of
    the translator is raised. *)
Theorem xpath_css_without_tree_node query ns kw cssquery
    (s : Selector.t) (h : heap) :
  Selector.type s = Html ∨ Selector.type s = Xml →
  is_element (Selector.root s) = false →
  Selector.xpath query ns kw (s, h) = (Ok [], (s, h))
  ∧ Selector.css cssquery (s, h)
    = match css_to_xpath (if decide (Selector.type s = Xml)
                          then GenericTranslator else HTMLTranslator)
              cssquery with
      | Ok _ => (Ok [], (s, h))
      | Raise err => (Raise err, (s, h))
      end.
Proof.
  intros Hty Hroot. split; [by apply xpath_without_element|].
  assert (He : ∃ e, _ctgroup (Selector.type s) = Ok e
                    ∧ _csstranslator e
                      = if decide (Selector.type s = Xml)
                        then GenericTranslator else HTMLTranslator).
  { destruct Hty as [-> | ->]; by eexists. }
  destruct He as (e & He & <-).
  rewrite (css_after_gate cssquery s h s h e (tree_kind_tree _ _ _ Hty) He).
  destruct (css_to_xpath _ _); [|done].
  by apply xpath_without_element.
Qed.

(** ** [Selector.jmespath] *)

Lemma jmespath_data_state (s : Selector.t) (h : heap) o st :
  Selector.jmespath_data (s, h) = (o, st) → st = (s, h).
Proof.
  unfold Selector.jmespath_data, bind, Selector.self, Selector.read_heap,
    lift_outcome, ret, raise. simpl.
  case_decide; [by intros [= <- <-]|].
  destruct (Selector.root s) as [| | | |v| | | |n]; try (by intros [= <- <-]).
  simpl. destruct (element_text h n); by intros [= <- <-].
Qed.




(** Without a kind override no item fails to wrap, and the tree is left
    alone. *)
Lemma make_selector_default query (x : pyval) (h : heap) :
  ∃ r, Selector.make_selector query None x h = (Ok r, h).
Proof.
  unfold Selector.make_selector.
  destruct (is_text x) eqn:Hx.
  - destruct x as [| | | |v| | | |]; try done. by eexists.
  - by eexists.
Qed.

Lemma for_each_total {S A B} (f : A → M S B) (xs : list A) (st : S) :
  (∀ x, ∃ y, f x st = (Ok y, st)) →
  ∃ ys, for_each f xs st = (Ok ys, st).
Proof.
  intros Hf. induction xs as [|x xs [ys IH]]; simpl; [by eexists|].
  destruct (Hf x) as [y Hy]. unfold bind at 1. rewrite Hy.
  unfold bind at 1. rewrite IH. by eexists.
Qed.

Lemma jmespath_unfold query type kw (s : Selector.t) (h : heap) data r :
  Selector.jmespath_data (s, h) = (Ok data, (s, h)) →
  jmespath_search query data kw = Ok r →
  Selector.jmespath query type kw (s, h)
  = match for_each (Selector.make_selector query type)
            (Selector.listify_non_null r) h with
    | (o, h') => (o, (s, h'))
    end.
Proof.
  intros Hdata Hr. unfold Selector.jmespath. unfold bind at 1.
  rewrite Hdata. unfold bind at 1. unfold lift_outcome. by rewrite Hr.
Qed.


Lemma init_json_text (v : str) ns root base expr (h : heap) :
  Selector.__init__ (PStr v) (Some (u "json")) ns root base expr h
  = match _load_json_or_none (Some v) with
    | Ok d =>
        (Ok {| Selector.namespaces :=
                 Selector.updated Selector._default_namespaces ns;
               Selector.type := Json; Selector._expr := expr;
               Selector.root := d;
               Selector._text := Some v |}, h)
    | Raise e => (Raise e, h)
    end.
Proof.
  unfold Selector.__init__, bind, lift_outcome, ret. simpl.
  by destruct (_load_json_or_none (Some v)).
Qed.

(** [except ValueError]: a [ValueError] of [json.loads] becomes the null
    document, any other exception goes through. *)
Lemma load_json_or_none_spec (v : str) :
  _load_json_or_none (Some v)
  = match json_loads v with
    | Ok d => Ok d
    | Raise e => if is_ValueError e then Ok PNone else Raise e
    end.
Proof. done. Qed.

Lemma jmespath_data_json (s : Selector.t) (h : heap) :
  Selector.type s = Json →
  Selector.jmespath_data (s, h) = (Ok (Selector.root s), (s, h)).
Proof.
  intros Hty. unfold Selector.jmespath_data, bind, Selector.self, ret. simpl.
  by rewrite decide_True.
Qed.

(** C5. Building a selector of kind json from a text on which [json.loads]
    raises a [ValueError] (a text that is not JSON) does not raise: the
    selector holds the null document.  A JMESPath query on it is the
    evaluation of the query on null: an error of the evaluator is raised, a
    null result gives the empty list, and any other result is wrapped item
    by item, which gives the selectors, or the error of the first item that
    [__init__] refuses.  A text on which [json.loads] raises an exception
    that is not a [ValueError] makes the construction raise it. *)
Theorem init_json_invalid (v : str) e ns root base expr (h : heap) :
  json_loads v = Raise e →
  (is_ValueError e = false →
   Selector.__init__ (PStr v) (Some (u "json")) ns root base expr h
   = (Raise e, h))
  ∧ (is_ValueError e = true →
     ∃ s,
       Selector.__init__ (PStr v) (Some (u "json")) ns root base expr h
       = (Ok s, h)
       ∧ Selector.type s = Json
       ∧ Selector.root s = PNone
       ∧ ∀ query type kw,
           Selector.jmespath query type kw (s, h)
           = match jmespath_search query PNone kw with
             | Ok r =>
                 match for_each (Selector.make_selector query type)
                         (Selector.listify_non_null r) h with
                 | (o, h') => (o, (s, h'))
                 end
             | Raise e => (Raise e, (s, h))
             end
           ∧ (jmespath_search query PNone kw = Ok PNone →
              Selector.jmespath query type kw (s, h) = (Ok [], (s, h)))).
Proof.
  intros Hv. rewrite init_json_text, load_json_or_none_spec, Hv.
  split; [by intros ->|]. intros ->. eexists. split; [done|]. simpl.
  split_and!; [done | done |]. intros query type kw.
  match goal with |- context [Selector.jmespath _ _ _ (?s0, _)] =>
    assert (Hdata : Selector.jmespath_data (s0, h) = (Ok PNone, (s0, h)))
      by by apply jmespath_data_json
  end.
  destruct (jmespath_search query PNone kw) as [r|e'] eqn:Hr.
  - rewrite (jmespath_unfold _ _ _ _ _ _ _ Hdata Hr). split; [done|].
    by intros [= ->].
  - split; [|done]. unfold Selector.jmespath. unfold bind at 1.
    rewrite Hdata. unfold bind at 1. unfold lift_outcome. by rewrite Hr.
Qed.

(** C9. With an evaluator that follows JMESPath on the sub-expression
    [a.b]: on a selector of kind json over [{"a": {"b": 5}}] the query
    [a.b] gives exactly one selector, of kind json, whose [get()] is the
    number 5 (the stored value, not its text); over [{"a": {}}] it gives the
    empty list. *)
Theorem jmespath_a_b kw (s : Selector.t) (h : heap) :
  (∀ d, jmespath_search (u "a.b") d kw
        = Ok (Reference.subexpression [u "a"; u "b"] d)) →
  Selector.type s = Json →
  (Selector.root s = doc_a_b_5 →
   ∃ r, Selector.jmespath (u "a.b") None kw (s, h) = (Ok [r], (s, h))
        ∧ Selector.type r = Json
        ∧ Selector.get (r, h) = (Ok (PInt 5), (r, h)))
  ∧ (Selector.root s = doc_a_empty →
     Selector.jmespath (u "a.b") None kw (s, h) = (Ok [], (s, h))).
Proof.
  intros Heval Hty.
  pose proof (jmespath_data_json s h Hty) as Hdata.
  split; intros Hroot; rewrite Hroot in Hdata;
    rewrite (jmespath_unfold _ None _ _ _ _ _ Hdata (Heval _)).
  - eexists. split_and!; [reflexivity | done | done].
  - done.
Qed.

End properties.

(** * Further properties of the module *)

Section more_properties.
Context {lib : Collaborators} {utils : Utils}.

(** ** [create_root_node] and [__init__] *)

Lemma lstrip_app_space (l s : str) :
  Forall (fun c => isspace c = true) l → lstrip (l ++ s) = lstrip s.
Proof. induction 1 as [|c l Hc _ IH]; simpl; [done | by rewrite Hc]. Qed.

Lemma lstrip_app (s r : str) :
  lstrip (s ++ r) = match lstrip s with
                    | [] => lstrip r
                    | _ => lstrip s ++ r
                    end.
Proof.
  induction s as [|c s IH]; simpl; [by destruct (lstrip r)|].
  by destruct (isspace c).
Qed.

Lemma rstrip_app_space (s r : str) :
  Forall (fun c => isspace c = true) r → rstrip (s ++ r) = rstrip s.
Proof.
  intros Hr. unfold rstrip. rewrite reverse_app.
  rewrite lstrip_app_space; [done | by apply Forall_reverse].
Qed.

Lemma strip_pad (l s r : str) :
  Forall (fun c => isspace c = true) l →
  Forall (fun c => isspace c = true) r →
  strip (l ++ s ++ r) = strip s.
Proof.
  intros Hl Hr. unfold strip. rewrite (lstrip_app_space l _ Hl), lstrip_app.
  destruct (lstrip s) as [|c s'] eqn:Hs.
  - by rewrite (lstrip_all_space r Hr).
  - by apply rstrip_app_space.
Qed.

(** X1. Whitespace around a document does not count: [create_root_node]
    on a text with runs of whitespace added at both ends is
    [create_root_node] on the text, and so is the selector built from it. *)
Theorem create_root_node_ignores_padding (l v r : str) p type ns root base
    expr (h : heap) :
  Forall (fun c => isspace c = true) l →
  Forall (fun c => isspace c = true) r →
  root_body (l ++ v ++ r) = root_body v
  ∧ create_root_node (PStr (l ++ v ++ r)) p base h
    = create_root_node (PStr v) p base h
  ∧ (type = None ∨ type = Some (u "html") ∨ type = Some (u "xml") →
     ∀ s h',
       Selector.__init__ (PStr v) type ns root base expr h = (Ok s, h') →
       ∃ s',
         Selector.__init__ (PStr (l ++ v ++ r)) type ns root base expr h
         = (Ok s', h')
         ∧ Selector.root s' = Selector.root s
         ∧ Selector.type s' = Selector.type s).
Proof.
  intros Hl Hr.
  assert (Hbody : root_body (l ++ v ++ r) = root_body v)
    by (unfold root_body; by rewrite strip_pad).
  assert (Hnode : ∀ q, create_root_node (PStr (l ++ v ++ r)) q base h
                       = create_root_node (PStr v) q base h)
    by (intros q; by rewrite !create_root_node_spec, Hbody).
  split_and!; [done | done |].
  intros Hty s h'. unfold Selector.__init__, bind, lift_outcome, ret.
  assert (Hroot : ∀ k, Selector._get_root k (PStr (l ++ v ++ r)) base h
                       = Selector._get_root k (PStr v) base h).
  { intros k. unfold Selector._get_root, bind, lift_outcome.
    destruct (_ctgroup k); [apply Hnode | done]. }
  destruct Hty as [-> | [-> | ->]]; simpl; rewrite Hroot;
    destruct (Selector._get_root _ _ _ _) as [[r0|e] h0]; try done;
    intros [= <- <-]; by eexists.
Qed.

Lemma init_namespaces text type ns root base expr (h h' : heap) s :
  Selector.__init__ text type ns root base expr h = (Ok s, h') →
  Selector.namespaces s = Selector.updated Selector._default_namespaces ns.
Proof.
  unfold Selector.__init__, bind, lift_outcome, ret, raise.
  destruct (Selector.check_type type) as [ty|]; [|done].
  destruct text as [| | | |v| | | |]; try done;
    [destruct root; [|done]; by intros [= <- _]|].
  destruct ty as [[]|];
    try (by intros [= <- _]);
    try (destruct (_load_json_or_none _); by intros [= <- _]);
    try (destruct (Selector._get_root _ _ _ _) as [[]]; by intros [= <- _]).
Qed.

(** X3. The registry of every selector that [__init__] returns: a prefix
    of the [namespaces] argument has the URI given there; any other prefix
    has its built-in URI, if it is [re] or [set], and none otherwise. *)
Theorem init_namespaces_lookup text type ns root base expr (h h' : heap) s :
  Selector.__init__ text type ns root base expr h = (Ok s, h') →
  ∀ p, Selector.namespaces s !! p
       = match ns ≫= (fun m => m !! p) with
         | Some uri => Some uri
         | None =>
             if decide (p = u "re")
             then Some (u "http://exslt.org/regular-expressions")
             else if decide (p = u "set")
                  then Some (u "http://exslt.org/sets")
                  else None
         end.
Proof.
  intros Hs p. rewrite (init_namespaces _ _ _ _ _ _ _ _ _ Hs), updated_lookup.
  destruct (ns ≫= _); [done|].
  unfold Selector._default_namespaces.
  case_decide as Hre; [subst; by rewrite lookup_insert_eq|].
  rewrite lookup_insert_ne by done.
  case_decide as Hset; [subst; by rewrite lookup_insert_eq|].
  by rewrite lookup_insert_ne.
Qed.

(** ** [xpath], [css] and the promotion of text *)

Lemma xpath_run query ns kw (s : Selector.t) (h : heap) s1 h1 :
  Selector.tree_kind "xpath" (s, h) = (Ok tt, (s1, h1)) →
  Selector.xpath query ns kw (s, h)
  = (match Selector.root s1 with
     | PElem n =>
         xpath_outcome_of s1 query
           (element_xpath h1 n query
              (Selector.updated (Selector.namespaces s1) ns) kw)
     | _ => Ok []
     end, (s1, h1)).
Proof.
  intros Hgate. unfold Selector.xpath. unfold bind at 1.
  rewrite Hgate. unfold bind, Selector.self, Selector.read_heap. simpl.
  destruct (Selector.root s1) as [| | | | | | | |n]; try done.
  destruct (element_xpath _ _ _ _ _) as [v|msg|e]; try done.
  unfold Selector.on_heap. simpl.
  rewrite (for_each_ok _ (xpath_item s1 query)); [done|].
  intros x. by rewrite init_with_root.
Qed.

Lemma xpath_state query ns kw (s : Selector.t) (h : heap) :
  (Selector.xpath query ns kw (s, h)).2
  = (Selector.tree_kind "xpath" (s, h)).2.
Proof.
  destruct (Selector.tree_kind "xpath" (s, h)) as [[[]|e] [s1 h1]] eqn:Hgate.
  - by rewrite (xpath_run _ _ _ _ _ _ _ Hgate).
  - by rewrite (xpath_gate_raise _ _ _ _ _ _ _ Hgate).
Qed.

Lemma tree_kind_not_text method (s : Selector.t) (h : heap) :
  Selector.type s ≠ Text → (Selector.tree_kind method (s, h)).2 = (s, h).
Proof.
  unfold Selector.tree_kind, bind, Selector.self. simpl.
  by destruct (Selector.type s).
Qed.

Lemma css_state query (s : Selector.t) (h : heap) :
  Selector.type s ≠ Text → (Selector.css query (s, h)).2 = (s, h).
Proof.
  intros Hty. unfold Selector.css. unfold bind at 1.
  pose proof (tree_kind_not_text "css" s h Hty) as Hgate.
  destruct (Selector.tree_kind "css" (s, h)) as [[[]|e] st]; simpl in Hgate;
    subst st; [|done].
  unfold bind at 1. unfold Selector._css2xpath, bind, Selector.self,
    lift_outcome. simpl.
  destruct (_ctgroup (Selector.type s)); [|done].
  destruct (css_to_xpath _ _); [|done].
  by rewrite xpath_state, tree_kind_not_text.
Qed.

(** X4. Queries do not write: on a selector of a kind other than text,
    [xpath] and [css] leave the selector and the tree as they are, whether
    they return a list or raise. *)
Theorem xpath_css_frame query ns kw cssquery (s : Selector.t) (h : heap) :
  Selector.type s ≠ Text →
  (Selector.xpath query ns kw (s, h)).2 = (s, h)
  ∧ (Selector.css cssquery (s, h)).2 = (s, h).
Proof.
  intros Hty. split; [|by apply css_state].
  by rewrite xpath_state, tree_kind_not_text.
Qed.

Lemma create_root_node_raise text p base (h h1 : heap) e :
  create_root_node text p base h = (Raise e, h1) → h1 = h.
Proof.
  destruct text as [| | | |v| | | |]; try (by intros [= _ <-]).
  rewrite create_root_node_spec. destruct (root_body v); [|by intros [= _ <-]].
  destruct (etree_fromstring p _ base h) as [[n|] h2]; [done|].
  by destruct (etree_fromstring p _ base h2) as [[n|] h3].
Qed.

Lemma tree_kind_text method (s : Selector.t) (h : heap) :
  Selector.type s = Text →
  Selector.tree_kind method (s, h)
  = match create_root_node (Selector.root s) HTMLParser None h with
    | (Ok r, h1) => (Ok tt, (with_root r (with_kind Html s), h1))
    | (Raise e, h1) => (Raise e, (with_kind Html s, h1))
    end.
Proof.
  intros Hty. unfold Selector.tree_kind, bind, Selector.self. simpl.
  rewrite Hty, load_lxml_root_spec.
  unfold Selector._get_root, bind, lift_outcome. simpl.
  by destruct (create_root_node _ _ _ _) as [[r|e] h1].
Qed.

(** X5. A promotion that fails is not tried again.  When the text of a
    selector of kind text cannot be parsed ([create_root_node] raises, as on
    a lone surrogate), [xpath] raises that error, the tree is untouched, and
    the selector is left with kind html and its old content; if that content
    is not a tree node, every later [xpath] on the selector returns the
    empty list instead of raising. *)
Theorem failed_promotion_sticks query ns kw query' ns' kw'
    (s : Selector.t) (h h1 : heap) e :
  Selector.type s = Text →
  create_root_node (Selector.root s) HTMLParser None h = (Raise e, h1) →
  h1 = h
  ∧ Selector.xpath query ns kw (s, h) = (Raise e, (with_kind Html s, h))
  ∧ (is_element (Selector.root s) = false →
     Selector.xpath query' ns' kw' (with_kind Html s, h)
     = (Ok [], (with_kind Html s, h))).
Proof.
  intros Hty Hroot.
  pose proof (create_root_node_raise _ _ _ _ _ _ Hroot) as ->.
  split_and!; [done | |].
  - apply xpath_gate_raise. by rewrite tree_kind_text, Hroot.
  - intros Hel. apply xpath_without_element; [by left | done].
Qed.

(** X6. Promotion happens once.  When the text of a selector of kind text
    parses, [xpath] leaves the selector with kind html and the parsed root
    (the original text is kept in [_text]); a later [xpath] or [css] on it
    parses nothing: it leaves the selector and the tree as they are. *)
Theorem promotion_is_one_way query ns kw query' ns' kw' cssquery
    (s : Selector.t) (h h1 : heap) r :
  Selector.type s = Text →
  create_root_node (Selector.root s) HTMLParser None h = (Ok r, h1) →
  let s1 := with_root r (with_kind Html s) in
  (Selector.xpath query ns kw (s, h)).2 = (s1, h1)
  ∧ (Selector.css cssquery (s, h)).2 = (s1, h1)
  ∧ (Selector.xpath query' ns' kw' (s1, h1)).2 = (s1, h1)
  ∧ (Selector.css cssquery (s1, h1)).2 = (s1, h1).
Proof.
  intros Hty Hroot s1.
  assert (Hgate : ∀ m, Selector.tree_kind m (s, h) = (Ok tt, (s1, h1)))
    by (intros m; by rewrite tree_kind_text, Hroot).
  split_and!.
  - by rewrite xpath_state, Hgate.
  - unfold Selector.css. unfold bind at 1. rewrite Hgate.
    unfold bind at 1. unfold Selector._css2xpath, bind, Selector.self,
      lift_outcome. simpl.
    destruct (css_to_xpath _ _); [|done].
    by rewrite xpath_state, tree_kind_not_text.
  - by rewrite xpath_state, tree_kind_not_text.
  - by apply css_state.
Qed.

(** X7. [register_namespace] is kept, unlike a call-scoped mapping.  After
    [register_namespace(prefix, uri)] on a selector of a tree kind that
    holds an element, [xpath] runs the evaluator with a registry in which
    [prefix] has [uri], unless the call-scoped mapping binds [prefix]
    itself, and otherwise agrees with the registry before; every selector of
    the result has [prefix] bound to [uri]. *)
Theorem register_namespace_then_xpath prefix uri query ns kw
    (s : Selector.t) (h : heap) n :
  Selector.type s = Html ∨ Selector.type s = Xml →
  Selector.root s = PElem n →
  let s1 := with_namespaces (<[prefix := uri]> (Selector.namespaces s)) s in
  Selector.register_namespace prefix uri (s, h) = (Ok tt, (s1, h))
  ∧ ∃ nsp,
      (∀ p, nsp !! p
            = match ns ≫= (fun m => m !! p) with
              | Some v => Some v
              | None => if decide (p = prefix) then Some uri
                        else Selector.namespaces s !! p
              end)
      ∧ Selector.xpath query ns kw (s1, h)
        = (xpath_outcome_of s1 query (element_xpath h n query nsp kw),
           (s1, h))
      ∧ ∀ l, (Selector.xpath query ns kw (s1, h)).1 = Ok l →
             Forall (fun r => Selector.namespaces r !! prefix = Some uri) l.
Proof.
  intros Hty Hroot s1. split; [done|].
  exists (Selector.updated (Selector.namespaces s1) ns).
  assert (Hrun : Selector.xpath query ns kw (s1, h)
                 = (xpath_outcome_of s1 query
                      (element_xpath h n query
                         (Selector.updated (Selector.namespaces s1) ns) kw),
                    (s1, h))).
  { rewrite (xpath_run query ns kw s1 h s1 h); [|by apply tree_kind_tree].
    simpl. by rewrite Hroot. }
  split_and!.
  - intros p. rewrite updated_lookup. destruct (ns ≫= _); [done|]. simpl.
    case_decide as Hp; [subst; by rewrite lookup_insert_eq|].
    by rewrite lookup_insert_ne.
  - exact Hrun.
  - intros l. rewrite Hrun. simpl.
    destruct (element_xpath _ _ _ _ _) as [v| |]; try done.
    intros [= <-]. apply Forall_fmap, Forall_true. intros x. simpl.
    rewrite lookup_union, lookup_insert_eq.
    by destruct (Selector._default_namespaces !! prefix).
Qed.

(** X8. A scalar result of XPath.  When the evaluator returns a value that
    is not a list, [xpath] returns exactly one selector, of the kind of the
    selector queried, that holds the value; its [get()] is ['1'] or ['0']
    for a boolean and the string itself for a string; when the value is
    not a tree node, [remove()] on it raises
    [CannotRemoveElementWithoutRoot] and a further [xpath] on it returns the
    empty list. *)
Theorem xpath_scalar_result query ns kw query' ns' kw'
    (s : Selector.t) (h : heap) n (v : pyval) :
  Selector.type s = Html ∨ Selector.type s = Xml →
  Selector.root s = PElem n →
  element_xpath h n query (Selector.updated (Selector.namespaces s) ns) kw
  = XPathValue v →
  (∀ l, v ≠ PList l) →
  ∃ r, Selector.xpath query ns kw (s, h) = (Ok [r], (s, h))
       ∧ Selector.root r = v
       ∧ Selector.type r = Selector.type s
       ∧ (∀ bv, v = PBool bv →
            Selector.get (r, h)
            = (Ok (PStr (if bv then u "1" else u "0")), (r, h)))
       ∧ (∀ t, v = PStr t → Selector.get (r, h) = (Ok (PStr t), (r, h)))
       ∧ (is_element v = false →
          Selector.remove (r, h)
          = (Raise CannotRemoveElementWithoutRoot, (r, h))
          ∧ Selector.xpath query' ns' kw' (r, h) = (Ok [], (r, h))).
Proof.
  intros Hty Hroot Heval Hscalar.
  exists (xpath_item s query v).
  rewrite (xpath_run query ns kw s h s h); [|by apply tree_kind_tree].
  rewrite Hroot, Heval. simpl.
  assert (Hlist : Selector.listify v = [v]).
  { destruct v; try done. by destruct (Hscalar v). }
  rewrite Hlist. split_and!; try done.
  - intros bv ->. unfold Selector.get, bind, Selector.self, ret. simpl.
    destruct Hty as [-> | ->]; by destruct bv.
  - intros t ->. unfold Selector.get, bind, Selector.self, ret. simpl.
    by destruct Hty as [-> | ->].
  - intros Hel. split.
    + unfold Selector.remove, bind, Selector.self, raise. simpl.
      by destruct v.
    + apply xpath_without_element; [exact Hty | exact Hel].
Qed.

(** ** [jmespath] *)

Lemma jmespath_from_data query type kw (s : Selector.t) (h : heap) d :
  Selector.jmespath_data (s, h) = (Ok d, (s, h)) →
  Selector.jmespath query type kw (s, h)
  = match jmespath_search query d kw with
    | Ok r =>
        match for_each (Selector.make_selector query type)
                (Selector.listify_non_null r) h with
        | (o, h') => (o, (s, h'))
        end
    | Raise e => (Raise e, (s, h))
    end.
Proof.
  intros Hdata. unfold Selector.jmespath. unfold bind at 1. rewrite Hdata.
  unfold bind at 1. unfold lift_outcome.
  by destruct (jmespath_search query d kw).
Qed.

Lemma jmespath_data_raise (s : Selector.t) (h : heap) e :
  Selector.jmespath_data (s, h) = (Raise e, (s, h)) →
  ∀ query type kw,
    Selector.jmespath query type kw (s, h) = (Raise e, (s, h)).
Proof.
  intros Hdata query type kw. unfold Selector.jmespath. unfold bind at 1.
  by rewrite Hdata.
Qed.

Lemma jmespath_reroute query type kw (s : Selector.t) (h : heap) d :
  Selector.jmespath_data (s, h) = (Ok d, (s, h)) →
  Selector.jmespath query type kw (s, h)
  = match Selector.jmespath query type kw
            (with_root d (with_kind Json s), h) with
    | (o, (_, h')) => (o, (s, h'))
    end.
Proof.
  intros Hdata. rewrite (jmespath_from_data _ _ _ _ _ _ Hdata).
  rewrite (jmespath_from_data query type kw (with_root d (with_kind Json s))
             h d); [|by apply jmespath_data_json].
  destruct (jmespath_search query d kw); [|done].
  by destruct (for_each _ _ h).
Qed.

(** X9. Which document a JMESPath query runs on, for a selector whose kind
    is not json.  A held string is read with [json.loads]; for a held
    element, the text of the element is read, or the text the selector was
    built from when the element has no text.  When [json.loads] returns a
    document, the query behaves as on the selector of kind json over that
    document; when it raises a [ValueError] (the text is not JSON), as on
    the selector of kind json over the null document; when it raises
    another exception, the call raises it.  When the element has no text
    and the selector was not built from a text (as a result of [xpath] is),
    the call raises [TypeError]; when the selector holds neither a string
    nor an element it raises [AttributeError]. *)
Theorem jmespath_document query type kw (s : Selector.t) (h : heap) :
  Selector.type s ≠ Json →
  let as_json d :=
    match Selector.jmespath query type kw
            (with_root d (with_kind Json s), h)
    with
    | (o, (_, h')) => (o, (s, h'))
    end in
  let on_text t :=
    Selector.jmespath query type kw (s, h)
    = match json_loads t with
      | Ok d => as_json d
      | Raise e =>
          if is_ValueError e then as_json PNone else (Raise e, (s, h))
      end in
  (∀ t, Selector.root s = PStr t → on_text t)
  ∧ (∀ n t, Selector.root s = PElem n → element_text h n = Some t →
            on_text t)
  ∧ (∀ n t, Selector.root s = PElem n → element_text h n = None →
            Selector._text s = Some t → on_text t)
  ∧ (∀ n, Selector.root s = PElem n → element_text h n = None →
          Selector._text s = None →
          Selector.jmespath query type kw (s, h) = (Raise TypeError, (s, h)))
  ∧ (is_text (Selector.root s) = false →
     is_element (Selector.root s) = false →
     Selector.jmespath query type kw (s, h)
     = (Raise AttributeError, (s, h))).
Proof.
  intros Hty as_json on_text. unfold on_text, as_json.
  assert (Hdata : Selector.jmespath_data (s, h)
                  = match Selector.root s with
                    | PStr t => (_load_json_or_none (Some t), (s, h))
                    | PElem n =>
                        match element_text h n with
                        | Some t => (_load_json_or_none (Some t), (s, h))
                        | None =>
                            match Selector._text s with
                            | Some t => (_load_json_or_none (Some t), (s, h))
                            | None => (Raise TypeError, (s, h))
                            end
                        end
                    | _ => (Raise AttributeError, (s, h))
                    end).
  { unfold Selector.jmespath_data, bind, Selector.self, Selector.read_heap,
      lift_outcome, raise. simpl. rewrite decide_False by done.
    destruct (Selector.root s) as [| | | |v| | | |n]; try done. simpl.
    destruct (element_text h n); [done|]. by destruct (Selector._text s). }
  assert (Htext : ∀ t,
    Selector.jmespath_data (s, h) = (_load_json_or_none (Some t), (s, h)) →
    Selector.jmespath query type kw (s, h)
    = match json_loads t with
      | Ok d =>
          match Selector.jmespath query type kw
                  (with_root d (with_kind Json s), h)
          with
          | (o, (_, h')) => (o, (s, h'))
          end
      | Raise e =>
          if is_ValueError e
          then match Selector.jmespath query type kw
                       (with_root PNone (with_kind Json s), h)
               with
               | (o, (_, h')) => (o, (s, h'))
               end
          else (Raise e, (s, h))
      end).
  { intros t. rewrite load_json_or_none_spec.
    destruct (json_loads t) as [d|e]; [by apply jmespath_reroute|].
    destruct (is_ValueError e); [by apply jmespath_reroute|].
    intros Hraise. by apply jmespath_data_raise. }
  split_and!.
  - intros t Hroot. rewrite Hroot in Hdata. by apply Htext.
  - intros n t Hroot Htxt. rewrite Hroot, Htxt in Hdata. by apply Htext.
  - intros n t Hroot Htxt Hsrc. rewrite Hroot, Htxt, Hsrc in Hdata.
    by apply Htext.
  - intros n Hroot Htxt Hsrc. rewrite Hroot, Htxt, Hsrc in Hdata.
    by apply jmespath_data_raise.
  - intros Hnt Hne. apply jmespath_data_raise. rewrite Hdata.
    by destruct (Selector.root s).
Qed.

Lemma jmespath_selector query type kw (s : Selector.t) (h : heap) :
  (Selector.jmespath query type kw (s, h)).2.1 = s.
Proof.
  destruct (Selector.jmespath_data (s, h)) as [[d|e] st] eqn:Hdata;
    pose proof (jmespath_data_state _ _ _ _ Hdata) as ->.
  - rewrite (jmespath_from_data _ _ _ _ _ _ Hdata).
    destruct (jmespath_search query d kw); [|done].
    by destruct (for_each _ _ h).
  - by rewrite (jmespath_data_raise _ _ _ Hdata).
Qed.

Lemma jmespath_default_state query kw (s : Selector.t) (h : heap) :
  (Selector.jmespath query None kw (s, h)).2 = (s, h).
Proof.
  destruct (Selector.jmespath_data (s, h)) as [[d|e] st] eqn:Hdata;
    pose proof (jmespath_data_state _ _ _ _ Hdata) as ->.
  - rewrite (jmespath_from_data _ _ _ _ _ _ Hdata).
    destruct (jmespath_search query d kw) as [r|]; [|done].
    destruct (for_each_total (Selector.make_selector query None)
                (Selector.listify_non_null r) h
                (fun x => make_selector_default query x h)) as [l ->].
    done.
  - by rewrite (jmespath_data_raise _ _ _ Hdata).
Qed.

(** X10. [jmespath] never changes the selector it is called on (no
    promotion takes place, whatever its kind); without a kind override it
    does not change the tree either, whether it returns or raises. *)
Theorem jmespath_frame query type kw (s : Selector.t) (h : heap) :
  (Selector.jmespath query type kw (s, h)).2.1 = s
  ∧ (Selector.jmespath query None kw (s, h)).2 = (s, h).
Proof.
  split; [apply jmespath_selector | apply jmespath_default_state].
Qed.

Lemma make_selector_invalid query t (x : pyval) (h : heap) :
  kind_of_name t = None → t ≠ [] →
  Selector.make_selector query (Some t) x h
  = (Raise (ValueError (u "Invalid type: " ++ t)), h).
Proof.
  intros Hk Ht. unfold Selector.make_selector.
  assert (Hor : Selector.type_or (Some t) (u "text") = t)
    by by destruct t.
  destruct (is_text x); rewrite ?Hor;
    unfold Selector.__init__, bind, lift_outcome, Selector.check_type;
    by rewrite Hk.
Qed.

(** X11. A kind override that names no kind is noticed only when there is
    something to wrap: on a selector of kind json, [jmespath] with such an
    override returns the empty list when the query has no result, and raises
    [ValueError] as soon as it has one; nothing is changed. *)
Theorem jmespath_invalid_override query t kw (s : Selector.t) (h : heap) r :
  Selector.type s = Json →
  jmespath_search query (Selector.root s) kw = Ok r →
  kind_of_name t = None →
  t ≠ [] →
  Selector.jmespath query (Some t) kw (s, h)
  = (match Selector.listify_non_null r with
     | [] => Ok []
     | _ :: _ => Raise (ValueError (u "Invalid type: " ++ t))
     end, (s, h)).
Proof.
  intros Hty Hr Hk Ht.
  rewrite (jmespath_from_data _ _ _ _ _ _ (jmespath_data_json s h Hty)), Hr.
  destruct (Selector.listify_non_null r) as [|x l]; [done|]. simpl.
  unfold bind at 1. by rewrite make_selector_invalid.
Qed.

(** ** Broadcasts of [SelectorList] *)

Lemma for_each_call_pure {A} (m : M Selector.St A)
    (l : Selector.selectorlist) (h : heap) :
  (∀ x, (m (x, h)).2 = (x, h)) →
  (for_each (fun x => SelectorList.call x m) l h).2 = h
  ∧ (∀ rs, Forall2 (fun x r => (m (x, h)).1 = Ok r) l rs →
           (for_each (fun x => SelectorList.call x m) l h).1 = Ok rs)
  ∧ (∀ l1 x l2 e,
       l = l1 ++ x :: l2 →
       Forall (fun y => ∃ r, (m (y, h)).1 = Ok r) l1 →
       (m (x, h)).1 = Raise e →
       (for_each (fun x => SelectorList.call x m) l h).1 = Raise e).
Proof.
  intros Hpure.
  assert (Hcall : ∀ x, SelectorList.call x m h = ((m (x, h)).1, h)).
  { intros x. unfold SelectorList.call. specialize (Hpure x).
    destruct (m (x, h)) as [o st]. simpl in *. by subst. }
  induction l as [|y l (IHstate & IHok & IHraise)].
  - split_and!; [done | by intros rs ->%Forall2_nil_inv_l |].
    intros [|??] ????; done.
  - assert (Hcons :
      for_each (fun x => SelectorList.call x m) (y :: l) h
      = match (m (y, h)).1 with
        | Ok a =>
            match for_each (fun x => SelectorList.call x m) l h with
            | (Ok r, h') => (Ok (a :: r), h')
            | (Raise e, h') => (Raise e, h')
            end
        | Raise e => (Raise e, h)
        end).
    { simpl. unfold bind at 1. rewrite Hcall.
      destruct ((m (y, h)).1); [|done]. unfold bind at 1.
      by destruct (for_each _ l h) as [[]]. }
    rewrite Hcons. clear Hcons.
    destruct ((m (y, h)).1) as [a|e] eqn:Hy; simpl.
    + destruct (for_each _ l h) as [[r|e] h'] eqn:Hl; simpl in *; subst h'.
      * split_and!; [done | |].
        -- intros rs Hrs. apply Forall2_cons_inv_l in Hrs
             as (a' & rs' & Ha & Hrs' & ->).
           specialize (IHok rs' Hrs'). congruence.
        -- intros [|z l1] x l2 e [= ? ?] Hl1 Hx; simplify_eq; [congruence|].
           apply Forall_cons in Hl1 as [_ Hl1].
           by specialize (IHraise l1 x l2 e eq_refl Hl1 Hx).
      * split_and!; [done | |].
        -- intros rs Hrs. apply Forall2_cons_inv_l in Hrs
             as (a' & rs' & Ha & Hrs' & ->).
           by specialize (IHok rs' Hrs').
        -- intros [|z l1] x l2 e' [= ? ?] Hl1 Hx; simplify_eq; [congruence|].
           apply Forall_cons in Hl1 as [_ Hl1].
           by specialize (IHraise l1 x l2 e' eq_refl Hl1 Hx).
    + split_and!; [done | |].
      * intros rs Hrs. apply Forall2_cons_inv_l in Hrs
          as (a' & rs' & Ha & Hrs' & ->). congruence.
      * intros [|z l1] x l2 e' [= ? ?] Hl1 Hx; simplify_eq; [congruence|].
        apply Forall_cons in Hl1 as [[r Hr] _]. congruence.
Qed.

(** X12. [SelectorList.jmespath] without a kind override is the broadcast
    of [Selector.jmespath]: the results of the elements, in order,
    concatenated; the error of the first element that raises otherwise (the
    empty list gives the empty list).  The tree is not changed. *)
Theorem selectorlist_jmespath_broadcast query kw
    (l : Selector.selectorlist) (h : heap) :
  (SelectorList.jmespath query None kw l h).2 = h
  ∧ broadcast_of (fun x => (Selector.jmespath query None kw (x, h)).1) l
      (SelectorList.jmespath query None kw l h).1.
Proof.
  destruct (for_each_call_pure (Selector.jmespath query None kw) l h
              (fun x => jmespath_default_state query kw x h))
    as (Hstate & Hok & Hraise).
  unfold SelectorList.jmespath, bind, ret, broadcast_of, flatten.
  destruct (for_each _ l h) as [[rs|e] h'] eqn:Hl; simpl in *; subst h'.
  - split_and!; [done | |].
    + intros rs' Hrs'. specialize (Hok rs' Hrs'). by simplify_eq.
    + intros l1 x l2 e Hl1 Hall Hx. by specialize (Hraise l1 x l2 e Hl1 Hall Hx).
  - split_and!; [done | |].
    + intros rs' Hrs'. by specialize (Hok rs' Hrs').
    + intros l1 x l2 e' Hl1 Hall Hx.
      specialize (Hraise l1 x l2 e' Hl1 Hall Hx). by simplify_eq.
Qed.

Lemma each_in_place_pure {A} (m : M Selector.St A)
    (l : Selector.selectorlist) (h : heap) :
  Forall (fun x => (m (x, h)).2 = (x, h)) l →
  (SelectorList.each_in_place m l h).2 = (l, h)
  ∧ (∀ rs, Forall2 (fun x r => (m (x, h)).1 = Ok r) l rs →
           (SelectorList.each_in_place m l h).1 = Ok rs)
  ∧ (∀ l1 x l2 e,
       l = l1 ++ x :: l2 →
       Forall (fun y => ∃ r, (m (y, h)).1 = Ok r) l1 →
       (m (x, h)).1 = Raise e →
       (SelectorList.each_in_place m l h).1 = Raise e).
Proof.
  induction 1 as [|y l Hy _ (IHstate & IHok & IHraise)].
  - split_and!; [done | by intros rs ->%Forall2_nil_inv_l |].
    intros [|??] ????; done.
  - simpl. destruct (m (y, h)) as [[a|e] [y' h1]] eqn:Hm; simpl in Hy;
      injection Hy as -> ->.
    + destruct (SelectorList.each_in_place m l h) as [[r|e] [l' h']] eqn:Hl;
        simpl in *; injection IHstate as -> ->.
      * split_and!; [done | |].
        -- intros rs Hrs. apply Forall2_cons_inv_l in Hrs
             as (a' & rs' & Ha & Hrs' & ->).
           specialize (IHok rs' Hrs'). rewrite Hm in Ha. simpl in Ha.
           congruence.
        -- intros [|z l1] x l2 e [= ? ?] Hl1 Hx; simplify_eq;
             [rewrite Hm in Hx; done|].
           apply Forall_cons in Hl1 as [_ Hl1].
           by specialize (IHraise l1 x l2 e eq_refl Hl1 Hx).
      * split_and!; [done | |].
        -- intros rs Hrs. apply Forall2_cons_inv_l in Hrs
             as (a' & rs' & Ha & Hrs' & ->).
           by specialize (IHok rs' Hrs').
        -- intros [|z l1] x l2 e' [= ? ?] Hl1 Hx; simplify_eq;
             [rewrite Hm in Hx; done|].
           apply Forall_cons in Hl1 as [_ Hl1].
           by specialize (IHraise l1 x l2 e' eq_refl Hl1 Hx).
    + split_and!; [done | |].
      * intros rs Hrs. apply Forall2_cons_inv_l in Hrs
          as (a' & rs' & Ha & Hrs' & ->). rewrite Hm in Ha. done.
      * intros [|z l1] x l2 e' [= ? ?] Hl1 Hx; simplify_eq.
        -- rewrite Hm in Hx. simpl in *. congruence.
        -- apply Forall_cons in Hl1 as [[r Hr] _]. rewrite Hm in Hr. done.
Qed.

Lemma in_place_broadcast {A} (m : M Selector.St (list A))
    (l : Selector.selectorlist) (h : heap) :
  Forall (fun x => (m (x, h)).2 = (x, h)) l →
  (match SelectorList.each_in_place m l h with
   | (Ok rs, st') => (Ok (flatten rs), st')
   | (Raise e, st') => (Raise e, st')
   end).2 = (l, h)
  ∧ broadcast_of (fun x => (m (x, h)).1) l
      (match SelectorList.each_in_place m l h with
       | (Ok rs, st') => (Ok (flatten rs), st')
       | (Raise e, st') => (Raise e, st')
       end).1.
Proof.
  intros Hpure.
  destruct (each_in_place_pure m l h Hpure) as (Hstate & Hok & Hraise).
  unfold broadcast_of, flatten.
  destruct (SelectorList.each_in_place m l h) as [[rs|e] st'];
    simpl in *; subst st'.
  - split_and!; [done | |].
    + intros rs' Hrs'. specialize (Hok rs' Hrs'). by simplify_eq.
    + intros l1 x l2 e Hl1 Hall Hx.
      by specialize (Hraise l1 x l2 e Hl1 Hall Hx).
  - split_and!; [done | |].
    + intros rs' Hrs'. by specialize (Hok rs' Hrs').
    + intros l1 x l2 e' Hl1 Hall Hx.
      specialize (Hraise l1 x l2 e' Hl1 Hall Hx). by simplify_eq.
Qed.

(** X13. On a list without selectors of kind text, [SelectorList.xpath]
    and [SelectorList.css] are the broadcasts of [Selector.xpath] and
    [Selector.css]: the results of the elements, in order, concatenated, or
    the error of the first element that raises; the list, its elements and
    the tree are left as they are. *)
Theorem selectorlist_xpath_css_broadcast query ns kw cssquery
    (l : Selector.selectorlist) (h : heap) :
  Forall (fun x => Selector.type x ≠ Text) l →
  ((SelectorList.xpath query ns kw (l, h)).2 = (l, h)
   ∧ broadcast_of (fun x => (Selector.xpath query ns kw (x, h)).1) l
       (SelectorList.xpath query ns kw (l, h)).1)
  ∧ ((SelectorList.css cssquery (l, h)).2 = (l, h)
     ∧ broadcast_of (fun x => (Selector.css cssquery (x, h)).1) l
         (SelectorList.css cssquery (l, h)).1).
Proof.
  intros Hkinds. split.
  - apply (in_place_broadcast (Selector.xpath query ns kw) l h).
    eapply Forall_impl; [exact Hkinds|]. intros x Hx. simpl.
    by rewrite xpath_state, tree_kind_not_text.
  - apply (in_place_broadcast (Selector.css cssquery) l h).
    eapply Forall_impl; [exact Hkinds|]. intros x Hx. by apply css_state.
Qed.

(** ** Removal *)

Lemma selector_remove_attached (x : Selector.t) (h : heap) n p :
  Selector.root x = PElem n → getparent h n = Some p →
  Selector.remove (x, h) = (Ok tt, (x, unlink p n h)).
Proof.
  intros Hroot Hpar. unfold Selector.remove, bind, Selector.self,
    Selector.read_heap, Selector.on_heap, element_remove. simpl.
  rewrite Hroot. simpl. rewrite Hpar. simpl. by rewrite decide_True.
Qed.

Lemma selector_remove_detached (x : Selector.t) (h : heap) n :
  Selector.root x = PElem n → getparent h n = None →
  Selector.remove (x, h) = (Raise CannotRemoveElementWithoutParent, (x, h)).
Proof.
  intros Hroot Hpar. unfold Selector.remove, bind, Selector.self,
    Selector.read_heap, raise. simpl.
  rewrite Hroot. simpl. by rewrite Hpar.
Qed.

Lemma selectorlist_remove_cons (x : Selector.t) l (h : heap) :
  SelectorList.remove (x :: l) h
  = match Selector.remove (x, h) with
    | (Ok _, (_, h1)) => SelectorList.remove l h1
    | (Raise e, (_, h1)) => (Raise e, h1)
    end.
Proof.
  unfold SelectorList.remove. simpl. unfold bind at 1 2.
  unfold SelectorList.call.
  destruct (Selector.remove (x, h)) as [[[]|e] [x' h1]]; simpl; [|done].
  unfold bind. by destruct (for_each _ l h1) as [[]].
Qed.

Lemma selectorlist_remove_app l1 l2 (h : heap) :
  SelectorList.remove (l1 ++ l2) h
  = match SelectorList.remove l1 h with
    | (Ok _, h1) => SelectorList.remove l2 h1
    | (Raise e, h1) => (Raise e, h1)
    end.
Proof.
  revert h. induction l1 as [|x l1 IH]; intros h.
  - done.
  - simpl. rewrite !selectorlist_remove_cons.
    destruct (Selector.remove (x, h)) as [[[]|e] [x' h1]]; [apply IH | done].
Qed.

Lemma unlink_data {A} (f : element → A) p n (h : heap) m :
  (∀ q e, f (set_parent q e) = f e) →
  (∀ cs e, f (set_children cs e) = f e) →
  f <$> unlink p n h !! m = f <$> h !! m.
Proof.
  intros Hp Hc. unfold unlink.
  destruct (decide (n = m)) as [->|Hn].
  - rewrite lookup_alter_eq. destruct (decide (p = m)) as [->|Hpm].
    + rewrite lookup_alter_eq. destruct (h !! m); simpl; [|done].
      by rewrite Hp, Hc.
    + rewrite lookup_alter_ne by done. destruct (h !! m); simpl; [|done].
      by rewrite Hp.
  - rewrite lookup_alter_ne by done. destruct (decide (p = m)) as [->|Hpm].
    + rewrite lookup_alter_eq. destruct (h !! m); simpl; [|done].
      by rewrite Hc.
    + by rewrite lookup_alter_ne.
Qed.

(** X14. [remove()] works once.  On a selector that holds an attached
    node it succeeds; a second [remove()] on the same selector then raises
    [CannotRemoveElementWithoutParent] and changes nothing.  The removed
    node stays readable: its own children stay linked to it, every other
    node keeps its parent, and no tag, text or attribute in the tree is
    changed. *)
Theorem remove_twice (s : Selector.t) (h : heap) n p :
  Selector.root s = PElem n →
  getparent h n = Some p →
  ∃ h1,
    Selector.remove (s, h) = (Ok tt, (s, h1))
    ∧ Selector.remove (s, h1)
      = (Raise CannotRemoveElementWithoutParent, (s, h1))
    ∧ (∀ m, m ≠ n → getparent h1 m = getparent h m)
    ∧ (n ≠ p → getchildren h1 n = getchildren h n)
    ∧ (∀ m, el_tag <$> h1 !! m = el_tag <$> h !! m)
    ∧ (∀ m, element_text h1 m = element_text h m)
    ∧ (∀ m, el_attrib <$> h1 !! m = el_attrib <$> h !! m).
Proof.
  intros Hroot Hpar. exists (unlink p n h). split_and!.
  - by apply selector_remove_attached.
  - apply (selector_remove_detached s _ n Hroot).
    by rewrite getparent_unlink, decide_True.
  - intros m Hm. by rewrite getparent_unlink, decide_False.
  - intros Hnp. by rewrite getchildren_unlink, decide_False.
  - intros m. by apply unlink_data.
  - intros m. unfold element_text.
    pose proof (unlink_data el_text p n h m (fun _ _ => eq_refl)
                  (fun _ _ => eq_refl)) as Hdata.
    destruct (unlink p n h !! m), (h !! m); simpl in *; congruence.
  - intros m. by apply unlink_data.
Qed.

(** X15. [SelectorList.remove] on selectors that hold distinct attached
    nodes removes them all: it returns, every node of the list has lost its
    parent, and any other node keeps its parent.  If one of the selectors
    then comes again later in the list, the call raises
    [CannotRemoveElementWithoutParent] at that point, with all these
    removals done. *)
Theorem selectorlist_remove_all (l : Selector.selectorlist) (ns : list nat)
    (h : heap) :
  Forall2 holds l ns →
  NoDup ns →
  Forall (fun n => is_Some (getparent h n)) ns →
  ∃ h',
    SelectorList.remove l h = (Ok tt, h')
    ∧ Forall (fun n => getparent h' n = None) ns
    ∧ (∀ m, m ∉ ns → getparent h' m = getparent h m)
    ∧ (∀ x l2, x ∈ l →
         SelectorList.remove (l ++ x :: l2) h
         = (Raise CannotRemoveElementWithoutParent, h')).
Proof.
  intros Hholds Hnodup Hattached.
  assert (Hmain : ∃ h',
    SelectorList.remove l h = (Ok tt, h')
    ∧ Forall (fun n => getparent h' n = None) ns
    ∧ (∀ m, m ∉ ns → getparent h' m = getparent h m)).
  { revert h Hnodup Hattached.
    induction Hholds as [|x n l ns Hx _ IH]; intros h Hnodup Hattached.
    - exists h. split_and!; [done | constructor | done].
    - apply NoDup_cons in Hnodup as [Hn Hnodup].
      apply Forall_cons in Hattached as [[p Hp] Hattached].
      destruct (IH (unlink p n h) Hnodup) as (h' & Hrm & Hdet & Hframe).
      { apply Forall_forall. intros m Hm.
        rewrite getparent_unlink, decide_False by (intros ->; done).
        by apply (proj1 (Forall_forall _ _) Hattached). }
      exists h'. split_and!.
      + rewrite selectorlist_remove_cons.
        by rewrite (selector_remove_attached x h n p Hx Hp).
      + constructor; [|done]. rewrite (Hframe n Hn).
        by rewrite getparent_unlink, decide_True.
      + intros m Hm. apply not_elem_of_cons in Hm as [Hmn Hm].
        rewrite (Hframe m Hm). by rewrite getparent_unlink, decide_False. }
  destruct Hmain as (h' & Hrm & Hdet & Hframe).
  exists h'. split_and!; try done.
  intros x l2 Hx. rewrite selectorlist_remove_app, Hrm.
  rewrite selectorlist_remove_cons.
  assert (Hn : ∃ n, holds x n ∧ n ∈ ns).
  { clear -Hholds Hx. induction Hholds as [|y n l ns Hy _ IH].
    - by apply elem_of_nil in Hx.
    - apply elem_of_cons in Hx as [-> | Hx].
      + exists n. split; [done | left].
      + destruct (IH Hx) as (n' & ? & ?). exists n'. split; [done | by right]. }
  destruct Hn as (n & Hroot & Hin).
  rewrite (selector_remove_detached x h' n Hroot); [done|].
  by apply (proj1 (Forall_forall _ _) Hdet).
Qed.

(** X16. [SelectorList.remove] stops at the first failure: when the
    selectors before [x] are removed and [remove()] on [x] then raises, the
    call raises that error; the removals before [x] are done and the
    selectors after [x] are not reached. *)
Theorem selectorlist_remove_aborts (l1 l2 : Selector.selectorlist)
    (x : Selector.t) (h h1 : heap) e :
  SelectorList.remove l1 h = (Ok tt, h1) →
  Selector.remove (x, h1) = (Raise e, (x, h1)) →
  SelectorList.remove (l1 ++ x :: l2) h = (Raise e, h1).
Proof.
  intros Hl1 Hx.
  by rewrite selectorlist_remove_app, Hl1, selectorlist_remove_cons, Hx.
Qed.

(** ** Attributes, truth value, regular expressions *)


Lemma re_outcome regex rep (x : Selector.t) (h : heap) :
  Selector.re regex rep (x, h) = ((Selector.re regex rep (x, h)).1, (x, h)).
Proof.
  unfold Selector.re. unfold bind at 1 2.
  destruct (get_total x h) as [v ->]. done.
Qed.

Lemma selectorlist_re_cons regex rep (x : Selector.t) l (h : heap) :
  SelectorList.re regex rep (x :: l) h
  = match (Selector.re regex rep (x, h)).1 with
    | Ok r =>
        match SelectorList.re regex rep l h with
        | (Ok rs, h') => (Ok (r ++ rs), h')
        | (Raise e, h') => (Raise e, h')
        end
    | Raise e => (Raise e, h)
    end.
Proof.
  unfold SelectorList.re. simpl. unfold bind at 1 2.
  unfold SelectorList.call at 1. rewrite re_outcome.
  destruct ((Selector.re regex rep (x, h)).1); [|done]. simpl.
  unfold bind, ret, flatten.
  by destruct (for_each _ l h) as [[]].
Qed.

Lemma selectorlist_re_first_cons regex d rep (x : Selector.t) l (h : heap) :
  SelectorList.re_first regex d rep (x :: l) h
  = match (Selector.re regex rep (x, h)).1 with
    | Ok (m :: _) => (Ok (PStr m), h)
    | Ok [] => SelectorList.re_first regex d rep l h
    | Raise e => (Raise e, h)
    end.
Proof.
  simpl. unfold bind at 1. unfold SelectorList.call. rewrite re_outcome.
  by destruct ((Selector.re regex rep (x, h)).1) as [[|m ms]|].
Qed.

(** X19. [re] and [re_first].  [Selector.re_first] is the first match of
    [Selector.re], or the default.  [SelectorList.re] is the broadcast of
    [Selector.re] and changes nothing.  [SelectorList.re_first] is the first
    match of the first selector that has one: whenever [SelectorList.re]
    returns, it is the head of that list, or the default when the list is
    empty; and it is found without looking at the selectors after that one,
    so it is returned even when [re] would raise on a later selector. *)
Theorem re_first_spec regex d rep (l : Selector.selectorlist) (h : heap) :
  (∀ x, Selector.re_first regex d rep (x, h)
        = (match (Selector.re regex rep (x, h)).1 with
           | Ok (m :: _) => Ok (PStr m)
           | Ok [] => Ok d
           | Raise e => Raise e
           end, (x, h)))
  ∧ (SelectorList.re regex rep l h).2 = h
  ∧ broadcast_of (fun x => (Selector.re regex rep (x, h)).1) l
      (SelectorList.re regex rep l h).1
  ∧ (∀ ms, (SelectorList.re regex rep l h).1 = Ok ms →
           SelectorList.re_first regex d rep l h
           = (Ok (match ms with m :: _ => PStr m | [] => d end), h))
  ∧ (∀ l1 x l2 m ms,
       l = l1 ++ x :: l2 →
       Forall (fun y => (Selector.re regex rep (y, h)).1 = Ok []) l1 →
       (Selector.re regex rep (x, h)).1 = Ok (m :: ms) →
       SelectorList.re_first regex d rep l h = (Ok (PStr m), h)).
Proof.
  split_and!.
  - intros x. unfold Selector.re_first. unfold bind at 1.
    rewrite re_outcome.
    by destruct ((Selector.re regex rep (x, h)).1) as [[|m ms]|].
  - destruct (for_each_call_pure (Selector.re regex rep) l h) as (Hst & _).
    { intros x. by rewrite re_outcome. }
    unfold SelectorList.re, bind, ret.
    by destruct (for_each _ l h) as [[]].
  - destruct (for_each_call_pure (Selector.re regex rep) l h)
      as (Hst & Hok & Hraise).
    { intros x. by rewrite re_outcome. }
    unfold SelectorList.re, bind, ret, broadcast_of, flatten.
    destruct (for_each _ l h) as [[rs|e] h']; simpl in *.
    + split.
      * intros rs' Hrs'. specialize (Hok rs' Hrs'). by simplify_eq.
      * intros l1 x l2 e Hl1 Hall Hx.
        by specialize (Hraise l1 x l2 e Hl1 Hall Hx).
    + split.
      * intros rs' Hrs'. by specialize (Hok rs' Hrs').
      * intros l1 x l2 e' Hl1 Hall Hx.
        specialize (Hraise l1 x l2 e' Hl1 Hall Hx). by simplify_eq.
  - induction l as [|x l IH]; intros ms.
    + by intros [= <-].
    + rewrite selectorlist_re_cons, selectorlist_re_first_cons.
      destruct ((Selector.re regex rep (x, h)).1) as [[|m r]|]; simpl.
      * destruct (SelectorList.re regex rep l h) as [[rs|e] h'] eqn:Hl;
          simpl in *; [|done].
        intros [= <-]. by apply IH.
      * destruct (SelectorList.re regex rep l h) as [[rs|e] h']; [|done].
        by intros [= <-].
      * done.
  - intros l1. revert l. induction l1 as [|y l1 IH];
      intros l x l2 m ms -> Hl1 Hx.
    + by rewrite app_nil_l, selectorlist_re_first_cons, Hx.
    + apply Forall_cons in Hl1 as [Hy Hl1].
      rewrite <- app_comm_cons, selectorlist_re_first_cons, Hy.
      by eapply IH.
Qed.

End more_properties.

(** * The embedding at concrete inputs

    The statements below run the embedding with the instance
    [Reference.collaborators]. *)

#[local] Existing Instance Reference.collaborators.

(** The text of blanks is accepted by [init_tree_kind_total]. *)
Lemma init_tree_kind_total_witness :
  encodable (u "  ")
  ∧ ∃ s h', Selector.__init__ (PStr (u "  ")) None None None None None ∅
            = (Ok s, h')
            ∧ Selector.type s = Html
            ∧ ∃ out, Selector.get (s, h') = (Ok (PStr out), (s, h')).
Proof.
  assert (Henc : encodable (u "  ")) by (repeat constructor).
  split; [exact Henc|].
  destruct (init_tree_kind_total (u "  ") None None None None None ∅ Henc
              (or_introl eq_refl))
    as (body & s & h' & _ & _ & _ & _ & _ & _ & _ & _ & _ & Hs & Hty & _
        & Hget).
  exists s, h'. split_and!; [exact Hs | exact Hty | exact Hget].
Defined.

(** C1 does not hold for every text: a lone surrogate cannot be encoded, and
    the constructor raises [UnicodeEncodeError]. *)
Lemma init_html_surrogate_raises :
  Selector.__init__ (PStr [0xD800]) (Some (u "html")) None None None None ∅
  = (Raise UnicodeEncodeError, ∅).
Proof. reflexivity. Qed.

(** C7 does not hold as it stands.  A text is given, it is a character
    string, no kind is given, and yet the constructor raises: the text holds
    a lone surrogate.  A text is given, it is a character string, the kind
    is json, and yet the constructor raises: the text is nested so deep that
    [json.loads] raises [RecursionError]. *)
Lemma init_raises_outside_three_cases :
  (Selector.__init__ (PStr [0xDC80]) None None None None None ∅
   = (Raise UnicodeEncodeError, ∅)
   ∧ ¬ ((PStr [0xDC80] = PNone ∧ @None pyval = None)
        ∨ (∃ t, @None str = Some t ∧ kind_of_name t = None)
        ∨ (PStr [0xDC80] ≠ PNone ∧ is_text (PStr [0xDC80]) = false)))
  ∧ (Selector.__init__ (PStr Reference.nested_text) (Some (u "json"))
       None None None None ∅
     = (Raise RecursionError, ∅)
     ∧ ¬ ((PStr Reference.nested_text = PNone ∧ @None pyval = None)
          ∨ (∃ t, Some (u "json") = Some t ∧ kind_of_name t = None)
          ∨ (PStr Reference.nested_text ≠ PNone
             ∧ is_text (PStr Reference.nested_text) = false))).
Proof.
  split; split.
  - reflexivity.
  - intros [[[=] _] | [(t & [=] & _) | [_ [=]]]].
  - vm_compute. reflexivity.
  - intros [[[=] _] | [(t & [= <-] & [=]) | [_ [=]]]].
Qed.

(** A selector built by [__init__] and a call-scoped prefix [x]. *)
Lemma xpath_namespaces_frame_witness :
  seeded (Selector.namespaces Reference.html_selector)
  ∧ (let '(o, (s', h')) :=
       Selector.xpath (u ".") (Some {[ u "x" := u "urn:x" ]}) []
         (Reference.html_selector, Reference.html_heap) in
     Selector.namespaces s' = Selector.namespaces Reference.html_selector
     ∧ ∀ l, o = Ok l →
         Forall (fun r => Selector.namespaces r
                          = Selector.namespaces Reference.html_selector) l).
Proof.
  assert (Hseed : seeded (Selector.namespaces Reference.html_selector))
    by apply (updated_seeded None).
  split; [exact Hseed|].
  pose proof (xpath_namespaces_frame (u ".") (Some {[ u "x" := u "urn:x" ]})
                [] Reference.html_selector Reference.html_heap Hseed) as Hthm.
  destruct (Selector.xpath _ _ _ _) as [o [s' h']].
  destruct Hthm as (Hns & Hres & _). split; [exact Hns | exact Hres].
Defined.

(** A selector of kind html that holds a string. *)
Lemma xpath_css_without_tree_node_witness :
  (Selector.type Reference.string_selector = Html
   ∨ Selector.type Reference.string_selector = Xml)
  ∧ is_element (Selector.root Reference.string_selector) = false
  ∧ Selector.xpath (u "//a") None [] (Reference.string_selector, ∅)
    = (Ok [], (Reference.string_selector, ∅))
  ∧ Selector.css (u "p") (Reference.string_selector, ∅)
    = (Ok [], (Reference.string_selector, ∅)).
Proof.
  destruct (xpath_css_without_tree_node (u "//a") None [] (u "p")
              Reference.string_selector ∅ (or_introl eq_refl) eq_refl)
    as [Hxpath Hcss].
  split_and!; [by left | reflexivity | exact Hxpath | exact Hcss].
Defined.

(** C10 does not hold for [css] on every query: the empty selector is a
    syntax error of the translator, raised by [css] although the selector
    holds no tree node. *)
Lemma css_without_tree_node_raises :
  Selector.css (u "") (Reference.string_selector, ∅)
  = (Raise (SelectorError (u "Expected selector, got <EOF at 0>")),
     (Reference.string_selector, ∅)).
Proof. reflexivity. Qed.



(** A text that is not JSON, then the query [a.b]. *)
Lemma init_json_invalid_witness :
  json_loads (u "not json") = Raise (ValueError (u "Expecting value"))
  ∧ ∃ s, Selector.__init__ (PStr (u "not json")) (Some (u "json"))
           None None None None ∅ = (Ok s, ∅)
         ∧ Selector.root s = PNone
         ∧ Selector.jmespath (u "a.b") None [] (s, ∅) = (Ok [], (s, ∅)).
Proof.
  assert (Hv : json_loads (u "not json")
               = Raise (ValueError (u "Expecting value"))) by reflexivity.
  split; [exact Hv|].
  destruct (init_json_invalid (u "not json") _ None None None None ∅ Hv)
    as [_ Hok].
  destruct (Hok eq_refl) as (s & Hs & _ & Hroot & Hquery).
  exists s. split_and!; [exact Hs | exact Hroot |].
  destruct (Hquery (u "a.b") None []) as [_ Hnull]. apply Hnull. reflexivity.
Defined.

(** C5 does not hold for every query, nor for every text.  On the null
    document the raw string literal ['x'] evaluates to the string [x], so
    the result has one selector.  And the text of 100000 opening brackets is
    not JSON, yet the construction raises: [json.loads] runs out of
    recursion depth, which is not a [ValueError]. *)
Lemma jmespath_on_null_nonempty :
  (json_loads (u "not json") = Raise (ValueError (u "Expecting value"))
   ∧ ∃ s r, Selector.__init__ (PStr (u "not json")) (Some (u "json"))
              None None None None ∅ = (Ok s, ∅)
            ∧ Selector.root s = PNone
            ∧ jmespath_search (u "'x'") PNone [] = Ok (PStr (u "x"))
            ∧ (Selector.jmespath (u "'x'") None [] (s, ∅)).1 = Ok [r]
            ∧ Selector.root r = PStr (u "x"))
  ∧ (json_loads Reference.nested_text = Raise RecursionError
     ∧ Selector.__init__ (PStr Reference.nested_text) (Some (u "json"))
         None None None None ∅
       = (Raise RecursionError, ∅)).
Proof.
  split.
  - split; [reflexivity|]. eexists _, _. split_and!; reflexivity.
  - split; vm_compute; reflexivity.
Qed.

(** The text [{"a": {"b": 5}}] parsed as JSON, then the query [a.b]. *)
Lemma jmespath_a_b_witness :
  (∀ d, jmespath_search (u "a.b") d []
        = Ok (Reference.subexpression [u "a"; u "b"] d))
  ∧ ∃ s r, Selector.__init__ (PStr (dq "{'a': {'b': 5}}")) (Some (u "json"))
             None None None None ∅ = (Ok s, ∅)
           ∧ Selector.type s = Json
           ∧ Selector.root s = doc_a_b_5
           ∧ Selector.jmespath (u "a.b") None [] (s, ∅) = (Ok [r], (s, ∅))
           ∧ Selector.get (r, ∅) = (Ok (PInt 5), (r, ∅)).
Proof.
  assert (Heval : ∀ d, jmespath_search (u "a.b") d []
                       = Ok (Reference.subexpression [u "a"; u "b"] d))
    by (intros d; reflexivity).
  split; [exact Heval|].
  set (s := {| Selector.namespaces := Selector._default_namespaces;
               Selector.type := Json; Selector._expr := None;
               Selector.root := doc_a_b_5;
               Selector._text := Some (dq "{'a': {'b': 5}}") |}).
  assert (Hty : Selector.type s = Json) by reflexivity.
  assert (Hroot : Selector.root s = doc_a_b_5) by reflexivity.
  destruct (jmespath_a_b [] s ∅ Heval Hty) as [Hfive _].
  destruct (Hfive Hroot) as (r & Hr & _ & Hget).
  exists s, r.
  split_and!; [reflexivity | exact Hty | exact Hroot | exact Hr | exact Hget].
Defined.

(** C9 does not hold as it stands: the result of [a.b] over
    [{"a": {"b": 5}}] holds the number 5 and [get()] returns that number,
    not the string ["5"]. *)
Lemma jmespath_a_b_get_is_number :
  ∃ s r, Selector.__init__ (PStr (dq "{'a': {'b': 5}}")) (Some (u "json"))
           None None None None ∅ = (Ok s, ∅)
         ∧ Selector.jmespath (u "a.b") None [] (s, ∅) = (Ok [r], (s, ∅))
         ∧ Selector.get (r, ∅) = (Ok (PInt 5), (r, ∅))
         ∧ (Selector.get (r, ∅)).1 ≠ Ok (PStr (u "5")).
Proof.
  exists {| Selector.namespaces := Selector._default_namespaces;
            Selector.type := Json; Selector._expr := None;
            Selector.root := doc_a_b_5;
            Selector._text := Some (dq "{'a': {'b': 5}}") |},
         {| Selector.namespaces := Selector._default_namespaces;
            Selector.type := Json; Selector._expr := Some (u "a.b");
            Selector.root := PInt 5; Selector._text := None |}.
  split_and!; [reflexivity | reflexivity | reflexivity |].
  discriminate.
Qed.

(** ** Runs *)

Example strip_run : strip (u "  a b  ") = u "a b".
Proof. reflexivity. Qed.

Example strip_keeps_inner_nul : strip [0; 32; 0] = [0; 32; 0].
Proof. reflexivity. Qed.

Example replace_nul_run : replace_nul [0; 97; 0; 98] = u "ab".
Proof. reflexivity. Qed.

Example encode_utf8_run :
  encode_utf8 [0x61; 0xE9; 0x20AC; 0x1F600]
  = Some (byte_of_N <$> [0x61; 0xC3; 0xA9; 0xE2; 0x82; 0xAC;
                         0xF0; 0x9F; 0x98; 0x80]).
Proof. reflexivity. Qed.

Example encode_utf8_surrogate : encode_utf8 [0x61; 0xD800] = None.
Proof. reflexivity. Qed.

Example root_body_empty : root_body (u "") = Some (b "<html/>").
Proof. reflexivity. Qed.

Example root_body_nul : root_body [0; 0; 0] = Some (b "<html/>").
Proof. reflexivity. Qed.

Example root_body_text : root_body (u " <a/> ") = Some (b "<a/>").
Proof. reflexivity. Qed.

Example init_empty_text_run :
  match Selector.__init__ (PStr (u "")) None None None None None ∅ with
  | (Ok s, h') =>
      h' = Reference.html_heap
      ∧ Selector.type s = Html
      ∧ Selector.root s = PElem 0
      ∧ (Selector.get (s, h')).1 = Ok (PStr (u "<html></html>"))
  | (Raise _, _) => False
  end.
Proof. split_and!; reflexivity. Qed.

Example xpath_self_run :
  (Selector.xpath (u ".") None []
     (Reference.html_selector, Reference.html_heap)).1
  = Ok [xpath_result Reference.html_selector (u ".") (PElem 0)].
Proof. reflexivity. Qed.

Example xpath_on_json_run :
  (Selector.xpath (u ".") None [] (Reference.json_selector, ∅)).1
  = Raise (ValueError (u "Cannot use xpath on a Selector of type 'json'")).
Proof. reflexivity. Qed.

Example remove_body_run :
  match Selector.remove (Reference.body_selector, Reference.family_heap) with
  | (o, (_, h')) =>
      o = Ok tt ∧ getparent h' 1 = None ∧ getchildren h' 0 = []
  end.
Proof. vm_compute. split_and!; reflexivity. Qed.

Example remove_root_run :
  (Selector.remove (Reference.html_selector, Reference.html_heap)).1
  = Raise CannotRemoveElementWithoutParent.
Proof. reflexivity. Qed.

Example remove_text_run :
  (Selector.remove (Reference.string_selector, ∅)).1
  = Raise CannotRemoveElementWithoutRoot.
Proof. reflexivity. Qed.

Example getall_run :
  (SelectorList.getall
     [Reference.string_selector; Reference.json_selector] ∅).1
  = Ok [PStr (u "abc"); PDict [(u "a", PStr (u "x"))]].
Proof. reflexivity. Qed.

(** ** Further properties at concrete inputs *)

#[local] Existing Instance Reference.utils.

Lemma create_root_node_ignores_padding_witness :
  Forall (fun c => isspace c = true) (u "  ")
  ∧ Forall (fun c => isspace c = true) (u " ")
  ∧ create_root_node (PStr (u "  " ++ u "<a/>" ++ u " ")) SafeXMLParser None ∅
    = create_root_node (PStr (u "<a/>")) SafeXMLParser None ∅.
Proof.
  assert (Hl : Forall (fun c => isspace c = true) (u "  "))
    by (repeat constructor).
  assert (Hr : Forall (fun c => isspace c = true) (u " "))
    by (repeat constructor).
  split_and!; [exact Hl | exact Hr |].
  exact (proj1 (proj2 (create_root_node_ignores_padding (u "  ") (u "<a/>")
                         (u " ") SafeXMLParser None None None None None ∅
                         Hl Hr))).
Defined.

Lemma init_namespaces_lookup_witness :
  Selector.__init__ (PStr (u "t")) (Some (u "text"))
    (Some {[ u "x" := u "urn:x" ]}) None None None ∅
  = (Ok Reference.prefixed_selector, ∅)
  ∧ Selector.namespaces Reference.prefixed_selector !! u "x"
    = Some (u "urn:x")
  ∧ Selector.namespaces Reference.prefixed_selector !! u "set"
    = Some (u "http://exslt.org/sets").
Proof.
  assert (Hs : Selector.__init__ (PStr (u "t")) (Some (u "text"))
                 (Some {[ u "x" := u "urn:x" ]}) None None None ∅
               = (Ok Reference.prefixed_selector, ∅)) by reflexivity.
  split_and!; [exact Hs | |];
    rewrite (init_namespaces_lookup _ _ _ _ _ _ _ _ _ Hs); reflexivity.
Defined.

Lemma xpath_css_frame_witness :
  Selector.type Reference.html_selector ≠ Text
  ∧ (Selector.xpath (u ".") None []
       (Reference.html_selector, Reference.html_heap)).2
    = (Reference.html_selector, Reference.html_heap).
Proof.
  assert (Hty : Selector.type Reference.html_selector ≠ Text) by discriminate.
  split; [exact Hty|].
  exact (proj1 (xpath_css_frame (u ".") None [] (u "p")
                  Reference.html_selector Reference.html_heap Hty)).
Defined.

Lemma failed_promotion_sticks_witness :
  Selector.type Reference.surrogate_selector = Text
  ∧ create_root_node (Selector.root Reference.surrogate_selector)
      HTMLParser None ∅
    = (Raise UnicodeEncodeError, ∅)
  ∧ Selector.xpath (u ".") None [] (Reference.surrogate_selector, ∅)
    = (Raise UnicodeEncodeError,
       (with_kind Html Reference.surrogate_selector, ∅))
  ∧ Selector.xpath (u ".") None []
      (with_kind Html Reference.surrogate_selector, ∅)
    = (Ok [], (with_kind Html Reference.surrogate_selector, ∅)).
Proof.
  assert (Hroot : create_root_node
                    (Selector.root Reference.surrogate_selector)
                    HTMLParser None ∅
                  = (Raise UnicodeEncodeError, ∅)) by reflexivity.
  destruct (failed_promotion_sticks (u ".") None [] (u ".") None []
              Reference.surrogate_selector ∅ ∅ _ eq_refl Hroot)
    as (_ & Hfirst & Hnext).
  split_and!; [reflexivity | exact Hroot | exact Hfirst | by apply Hnext].
Defined.

Lemma promotion_is_one_way_witness :
  Selector.type Reference.text_selector = Text
  ∧ create_root_node (Selector.root Reference.text_selector) HTMLParser None ∅
    = (Ok (PElem 0), Reference.html_heap)
  ∧ (Selector.xpath (u ".") None [] (Reference.text_selector, ∅)).2
    = (with_root (PElem 0) (with_kind Html Reference.text_selector),
       Reference.html_heap).
Proof.
  assert (Hroot : create_root_node (Selector.root Reference.text_selector)
                    HTMLParser None ∅
                  = (Ok (PElem 0), Reference.html_heap)) by reflexivity.
  split_and!; [reflexivity | exact Hroot |].
  exact (proj1 (promotion_is_one_way (u ".") None [] (u ".") None [] (u "p")
                  Reference.text_selector ∅ Reference.html_heap (PElem 0)
                  eq_refl Hroot)).
Defined.

Lemma register_namespace_then_xpath_witness :
  (Selector.type Reference.html_selector = Html
   ∨ Selector.type Reference.html_selector = Xml)
  ∧ Selector.root Reference.html_selector = PElem 0
  ∧ Selector.register_namespace (u "x") (u "urn:x")
      (Reference.html_selector, Reference.html_heap)
    = (Ok tt,
       (with_namespaces
          (<[u "x" := u "urn:x"]>
             (Selector.namespaces Reference.html_selector))
          Reference.html_selector, Reference.html_heap)).
Proof.
  split_and!; [by left | reflexivity |].
  exact (proj1 (register_namespace_then_xpath (u "x") (u "urn:x") (u ".")
                  None [] Reference.html_selector Reference.html_heap 0
                  (or_introl eq_refl) eq_refl)).
Defined.

Lemma xpath_scalar_result_witness :
  (Selector.type Reference.html_selector = Html
   ∨ Selector.type Reference.html_selector = Xml)
  ∧ Selector.root Reference.html_selector = PElem 0
  ∧ Reference.element_xpath_bool Reference.html_heap 0 (u "false()")
      (Selector.updated (Selector.namespaces Reference.html_selector) None)
      [] = XPathValue (PBool false)
  ∧ (∀ l, PBool false ≠ PList l)
  ∧ ∃ r, Selector.xpath (H := Reference.collaborators_bool) (u "false()")
           None [] (Reference.html_selector, Reference.html_heap)
         = (Ok [r], (Reference.html_selector, Reference.html_heap))
         ∧ Selector.get (H := Reference.collaborators_bool)
             (r, Reference.html_heap)
           = (Ok (PStr (u "0")), (r, Reference.html_heap)).
Proof.
  assert (Heval : Reference.element_xpath_bool Reference.html_heap 0
                    (u "false()")
                    (Selector.updated
                       (Selector.namespaces Reference.html_selector) None) []
                  = XPathValue (PBool false)) by reflexivity.
  assert (Hscalar : ∀ l, PBool false ≠ PList l) by discriminate.
  split_and!; [by left | reflexivity | exact Heval | exact Hscalar |].
  destruct (xpath_scalar_result (lib := Reference.collaborators_bool)
              (u "false()") None [] (u ".") None []
              Reference.html_selector Reference.html_heap 0 (PBool false)
              (or_introl eq_refl) eq_refl Heval Hscalar)
    as (r & Hr & _ & _ & Hbool & _).
  exists r. split; [exact Hr | exact (Hbool false eq_refl)].
Defined.

Lemma jmespath_document_witness :
  Selector.type Reference.string_selector ≠ Json
  ∧ Selector.jmespath (u "a") None [] (Reference.string_selector, ∅)
    = (Ok [], (Reference.string_selector, ∅)).
Proof.
  assert (Hty : Selector.type Reference.string_selector ≠ Json)
    by discriminate.
  split; [exact Hty|].
  destruct (jmespath_document (u "a") None [] Reference.string_selector ∅ Hty)
    as (Hstring & _).
  rewrite (Hstring (u "abc") eq_refl). reflexivity.
Defined.

Lemma jmespath_invalid_override_witness :
  Selector.type Reference.json_selector = Json
  ∧ jmespath_search (u "a") (Selector.root Reference.json_selector) []
    = Ok (PStr (u "x"))
  ∧ kind_of_name (u "bogus") = None
  ∧ u "bogus" ≠ []
  ∧ Selector.jmespath (u "a") (Some (u "bogus")) []
      (Reference.json_selector, ∅)
    = (Raise (ValueError (u "Invalid type: bogus")),
       (Reference.json_selector, ∅)).
Proof.
  assert (Hr : jmespath_search (u "a")
                 (Selector.root Reference.json_selector) []
               = Ok (PStr (u "x"))) by reflexivity.
  assert (Hk : kind_of_name (u "bogus") = None) by reflexivity.
  assert (Ht : u "bogus" ≠ []) by discriminate.
  split_and!; [reflexivity | exact Hr | exact Hk | exact Ht |].
  exact (jmespath_invalid_override (u "a") (u "bogus") []
           Reference.json_selector ∅ (PStr (u "x")) eq_refl Hr Hk Ht).
Defined.

Lemma selectorlist_xpath_css_broadcast_witness :
  Forall (fun x => Selector.type x ≠ Text)
    [Reference.html_selector; Reference.string_selector]
  ∧ (SelectorList.xpath (u ".") None []
       ([Reference.html_selector; Reference.string_selector],
        Reference.html_heap)).2
    = ([Reference.html_selector; Reference.string_selector],
       Reference.html_heap).
Proof.
  assert (Hkinds : Forall (fun x => Selector.type x ≠ Text)
                     [Reference.html_selector; Reference.string_selector])
    by (repeat constructor; discriminate).
  split; [exact Hkinds|].
  exact (proj1 (proj1 (selectorlist_xpath_css_broadcast (u ".") None []
                         (u "p") _ Reference.html_heap Hkinds))).
Defined.

Lemma remove_twice_witness :
  Selector.root Reference.body_selector = PElem 1
  ∧ getparent Reference.family_heap 1 = Some 0%nat
  ∧ ∃ h1, Selector.remove (Reference.body_selector, Reference.family_heap)
          = (Ok tt, (Reference.body_selector, h1))
          ∧ Selector.remove (Reference.body_selector, h1)
            = (Raise CannotRemoveElementWithoutParent,
               (Reference.body_selector, h1)).
Proof.
  assert (Hpar : getparent Reference.family_heap 1 = Some 0%nat)
    by reflexivity.
  split_and!; [reflexivity | exact Hpar |].
  destruct (remove_twice Reference.body_selector Reference.family_heap 1 0
              eq_refl Hpar) as (h1 & Hfirst & Hsecond & _).
  exists h1. split; [exact Hfirst | exact Hsecond].
Defined.

Lemma selectorlist_remove_all_witness :
  Forall2 holds [Reference.body_selector] [1%nat]
  ∧ NoDup [1%nat]
  ∧ Forall (fun n => is_Some (getparent Reference.family_heap n)) [1%nat]
  ∧ ∃ h', SelectorList.remove [Reference.body_selector] Reference.family_heap
          = (Ok tt, h')
          ∧ SelectorList.remove
              [Reference.body_selector; Reference.body_selector]
              Reference.family_heap
            = (Raise CannotRemoveElementWithoutParent, h').
Proof.
  assert (Hholds : Forall2 holds [Reference.body_selector] [1%nat])
    by (repeat constructor).
  assert (Hnodup : NoDup [1%nat])
    by (apply NoDup_singleton).
  assert (Hatt : Forall (fun n => is_Some (getparent Reference.family_heap n))
                   [1%nat]) by (repeat constructor; by eexists).
  split_and!; [exact Hholds | exact Hnodup | exact Hatt |].
  destruct (selectorlist_remove_all _ _ Reference.family_heap
              Hholds Hnodup Hatt) as (h' & Hrm & _ & _ & Hdup).
  exists h'. split; [exact Hrm|].
  apply (Hdup Reference.body_selector []). left.
Defined.

Lemma selectorlist_remove_aborts_witness :
  SelectorList.remove [Reference.body_selector] Reference.family_heap
  = (Ok tt, unlink 0 1 Reference.family_heap)
  ∧ Selector.remove (Reference.string_selector,
                     unlink 0 1 Reference.family_heap)
    = (Raise CannotRemoveElementWithoutRoot,
       (Reference.string_selector, unlink 0 1 Reference.family_heap))
  ∧ SelectorList.remove
      [Reference.body_selector; Reference.string_selector;
       Reference.html_selector] Reference.family_heap
    = (Raise CannotRemoveElementWithoutRoot,
       unlink 0 1 Reference.family_heap).
Proof.
  assert (Hl1 : SelectorList.remove [Reference.body_selector]
                  Reference.family_heap
                = (Ok tt, unlink 0 1 Reference.family_heap)) by reflexivity.
  assert (Hx : Selector.remove (Reference.string_selector,
                                unlink 0 1 Reference.family_heap)
               = (Raise CannotRemoveElementWithoutRoot,
                  (Reference.string_selector,
                   unlink 0 1 Reference.family_heap))) by reflexivity.
  split_and!; [exact Hl1 | exact Hx |].
  exact (selectorlist_remove_aborts [Reference.body_selector]
           [Reference.html_selector] Reference.string_selector
           Reference.family_heap _ _ Hl1 Hx).
Defined.

Example re_first_run :
  SelectorList.re (u "ab") true
    [Reference.string_selector; Reference.text_selector] ∅
  = (Ok [u "ab"; u "ab"; u "ab"], ∅)
  ∧ SelectorList.re_first (u "ab") PNone true
      [Reference.string_selector; Reference.text_selector] ∅
    = (Ok (PStr (u "ab")), ∅)
  ∧ SelectorList.re_first (u "zz") PNone true
      [Reference.string_selector; Reference.text_selector] ∅
    = (Ok PNone, ∅).
Proof. split_and!; reflexivity. Qed.

Example attrib_run :
  Selector.attrib (Reference.attr_selector, Reference.attr_heap)
  = (Ok [(u "x", u "1")], (Reference.attr_selector, Reference.attr_heap))
  ∧ SelectorList.attrib [] Reference.attr_heap = (Ok [], Reference.attr_heap).
Proof. split; reflexivity. Qed.

Example bool_run :
  (Selector.__bool__ (Reference.json_selector, ∅)).1 = Ok true
  ∧ (Selector.__bool__ (with_root (PInt 0) Reference.json_selector, ∅)).1
    = Ok false
  ∧ (Selector.__bool__ (with_root (PBool false) Reference.html_selector,
                        ∅)).1 = Ok true.
Proof. split_and!; reflexivity. Qed.
